(** * From model to production: anomaly scoring service and training pipeline

    A shallow embedding of [from_model_to_production.py] (the offline training
    job), [main.py] (the FastAPI scoring service) and [simulate_sensors.py]
    (the traffic generator), and the properties of the feature transform, the
    service life cycle and the error paths.

    Conventions of the embedding.
    - The programs are embedded twice as far as numbers go. The control flow,
      the error paths and the state are studied on an embedding where a
      Python [float] is an exact rational ([Q]) and a value reaching the
      feature code is a float or a string ([pyval]); the arithmetic raises
      [TypeError] on strings as CPython does. The numeric content of the two
      feature functions (the values they return, NaN and the infinities
      included) is studied on module [binary64], where a float is an IEEE
      754 binary64 number and every operation rounds as the hardware does.
    - A pandas [DataFrame] is the ordered list of its named columns.
    - Code that raises returns [inl e]; the process state (file system, the
      [ml_models] registry, numpy's global generator, standard output) is
      threaded explicitly and survives a raise, as in Python.
    - scikit-learn, numpy's generator, the KaggleHub download and pydantic's
      parsing of numbers are external libraries: the estimator is a record of
      its methods, the others are parameters of the development. *)

From Stdlib Require Import Floats Uint63 QArith Qround Qminmax Qabs ZArith String List Lia Lqa.
From Stdlib Require DecimalString.
From stdpp Require Import base gmap strings list fin_maps pretty.

Local Open Scope string_scope.

#[local] Set Warnings "-inexact-float".

(** ** Python values and exceptions *)

Inductive pyval :=
| PyFloat (x : Q)
| PyStr (s : string).

Inductive exn :=
| KeyError (key : string)
| TypeError (msg : string)
| ValueError (msg : string)
| IndexError (msg : string)
| AttributeError (msg : string)
| FileNotFoundError (msg : string)
| HTTPException (status_code : Z) (detail : string)
| Exception (msg : string).

(** The double-quote character, as CPython prints it in a message. *)
Definition dquote : string := String (Ascii.ascii_of_nat 34) EmptyString.

Definition contains (c : Ascii.ascii) (s : string) : bool :=
  existsb (Ascii.eqb c) (list_ascii_of_string s).

(** [repr(s)] of a string without backslashes: single quotes, or double
    quotes when the text holds a single quote and no double quote. *)
Definition repr_str (s : string) : string :=
  if contains (Ascii.ascii_of_nat 39) s && negb (contains (Ascii.ascii_of_nat 34) s)
  then dquote +:+ s +:+ dquote
  else "'" +:+ s +:+ "'".

(** [str(e)]: a [KeyError] shows the repr of its key, Starlette's
    [HTTPException] shows "status: detail", the others their message. *)
Definition str (e : exn) : string :=
  match e with
  | KeyError k => repr_str k
  | TypeError m | ValueError m | IndexError m | AttributeError m
  | FileNotFoundError m | Exception m => m
  | HTTPException c d => pretty c +:+ ": " +:+ d
  end.

(** The outcome of code that may raise. *)
Definition result (A : Type) : Type := exn + A.

Definition rbind {A B} (r : result A) (k : A -> result B) : result B :=
  match r with
  | inl e => inl e
  | inr a => k a
  end.

(** A comprehension whose body may raise: the first raise wins. *)
Fixpoint traverse {A B} (f : A -> result B) (l : list A) : result (list B) :=
  match l with
  | [] => inr []
  | a :: l' => rbind (f a) (fun b => rbind (traverse f l') (fun bs => inr (b :: bs)))
  end.

Definition type_name (v : pyval) : string :=
  match v with
  | PyFloat _ => "float"
  | PyStr _ => "str"
  end.

Definition unsupported (op : string) (a b : pyval) : exn :=
  TypeError ("unsupported operand type(s) for " +:+ op +:+ ": '" +:+ type_name a
             +:+ "' and '" +:+ type_name b +:+ "'").

(** [a - b] *)
Definition py_sub (a b : pyval) : result pyval :=
  match a, b with
  | PyFloat x, PyFloat y => inr (PyFloat (x - y)%Q)
  | _, _ => inl (unsupported "-" a b)
  end.

(** [a * b]; a string times a float is CPython's sequence-repeat error. *)
Definition py_mul (a b : pyval) : result pyval :=
  match a, b with
  | PyFloat x, PyFloat y => inr (PyFloat (x * y)%Q)
  | PyStr _, _ => inl (TypeError ("can't multiply sequence by non-int of type '" +:+ type_name b +:+ "'"))
  | _, PyStr _ => inl (TypeError ("can't multiply sequence by non-int of type '" +:+ type_name a +:+ "'"))
  end.

(** [a + b]; two strings concatenate. *)
Definition py_add (a b : pyval) : result pyval :=
  match a, b with
  | PyFloat x, PyFloat y => inr (PyFloat (x + y)%Q)
  | PyStr s, PyStr t => inr (PyStr (s +:+ t))
  | PyStr _, PyFloat _ => inl (TypeError ("can only concatenate str (not " +:+ dquote +:+ "float" +:+ dquote +:+ ") to str"))
  | PyFloat _, PyStr _ => inl (unsupported "+" a b)
  end.

(** The builtin [round(x, ndigits)] for a non-negative [ndigits]: the nearest
    multiple of [10^-ndigits], ties to the even one. *)
Definition round_half_even (y : Q) : Z :=
  let f := Qfloor y in
  match (y - inject_Z f ?= 1 # 2)%Q with
  | Lt => f
  | Gt => (f + 1)%Z
  | Eq => if Z.even f then f else (f + 1)%Z
  end.

Definition round (x : Q) (ndigits : Z) : Q :=
  let scale := inject_Z (10 ^ ndigits) in
  (inject_Z (round_half_even (x * scale)) / scale)%Q.

(** ** Text rendering *)

Definition join_with (sep : string) (l : list string) : string :=
  match l with
  | [] => ""
  | x :: l' => fold_left (fun acc y => acc +:+ sep +:+ y) l' x
  end.

Definition quoted (l : list string) : list string := map (fun n => "'" +:+ n +:+ "'") l.

(** The [repr] of a list of strings, and numpy's rendering of an array of them. *)
Definition repr_list (l : list string) : string := "[" +:+ join_with ", " (quoted l) +:+ "]".
Definition repr_array (l : list string) : string := "[" +:+ join_with " " (quoted l) +:+ "]".

(** ** pandas: the part of [Series] and [DataFrame] the two programs use *)

Module pd.

Definition Series : Type := list pyval.

(** Columns in their order, each with its name. *)
Definition DataFrame : Type := list (string * Series).

Definition columns (df : DataFrame) : list string := map fst df.

(** [len(df)] *)
Definition len (df : DataFrame) : nat :=
  match df with
  | [] => 0
  | (_, s) :: _ => length s
  end.

Fixpoint columns_of (rows : list (list pyval)) (names : list string) : DataFrame :=
  match names with
  | [] => []
  | c :: cs => (c, map (fun r => hd (PyFloat 0) r) rows) :: columns_of (map (@tl pyval) rows) cs
  end.

(** [pd.DataFrame(rows, columns=names)] *)
Definition from_rows (rows : list (list pyval)) (names : list string) : result DataFrame :=
  if forallb (fun r => Nat.eqb (length r) (length names)) rows
  then inr (columns_of rows names)
  else inl (ValueError "columns passed do not match the width of the data").

Fixpoint lookup (c : string) (df : DataFrame) : option Series :=
  match df with
  | [] => None
  | (c', s) :: df' => if String.eqb c c' then Some s else lookup c df'
  end.

(** [df[c]] *)
Definition getitem (c : string) (df : DataFrame) : result Series :=
  match lookup c df with
  | Some s => inr s
  | None => inl (KeyError c)
  end.

(** The names of [cs] that are no column of [df]. *)
Definition missing (cs : list string) (df : DataFrame) : list string :=
  List.filter (fun c => match lookup c df with Some _ => false | None => true end) cs.

(** [df[[c1, ..., cn]]]: the named columns, in the order they are asked for.
    When a name is missing pandas raises one [KeyError] for the whole
    selection: it lists the missing names, or says that none was found. *)
Definition getitems (cs : list string) (df : DataFrame) : result DataFrame :=
  match traverse (fun c => rbind (getitem c df) (fun s => inr (c, s))) cs with
  | inr out => inr out
  | inl _ =>
      if Nat.eqb (length (missing cs df)) (length cs)
      then inl (KeyError ("None of [Index(" +:+ repr_list cs
                          +:+ ", dtype='object')] are in the [columns]"))
      else inl (KeyError (repr_list (missing cs df) +:+ " not in index"))
  end.

Fixpoint assoc (c : string) (m : list (string * string)) : option string :=
  match m with
  | [] => None
  | (k, v) :: m' => if String.eqb c k then Some v else assoc c m'
  end.

(** [df.rename(columns=m, inplace=True)]: names not in [m] stay, positions stay. *)
Definition rename (m : list (string * string)) (df : DataFrame) : DataFrame :=
  map (fun '(c, s) => (default c (assoc c m), s)) df.

Fixpoint replace (c : string) (s : Series) (df : DataFrame) : DataFrame :=
  match df with
  | [] => [(c, s)]
  | (c', s') :: df' => if String.eqb c c' then (c, s) :: df' else (c', s') :: replace c s df'
  end.

(** [df[c] = s]: an existing column is overwritten in place, a new one is
    appended as the last column; the lengths must agree. *)
Definition setitem (c : string) (s : Series) (df : DataFrame) : result DataFrame :=
  match df with
  | [] => inr [(c, s)]
  | _ => if Nat.eqb (length s) (len df)
         then inr (replace c s df)
         else inl (ValueError "Length of values does not match length of index")
  end.

(** [df.drop(columns=[c], inplace=True)] *)
Definition drop (c : string) (df : DataFrame) : result DataFrame :=
  match lookup c df with
  | Some _ => inr (List.filter (fun p => negb (String.eqb c (fst p))) df)
  | None => inl (KeyError ("['" +:+ c +:+ "'] not found in axis"))
  end.

(** [s - x], [s * x], [x + s], [s + x] for a scalar [x]. *)
Definition sub_scalar (s : Series) (x : Q) : result Series :=
  traverse (fun v => py_sub v (PyFloat x)) s.

Definition mul_scalar (s : Series) (x : Q) : result Series :=
  traverse (fun v => py_mul v (PyFloat x)) s.

Definition scalar_add (x : Q) (s : Series) : result Series :=
  traverse (fun v => py_add (PyFloat x) v) s.

Definition add_scalar (s : Series) (x : Q) : result Series :=
  traverse (fun v => py_add v (PyFloat x)) s.

(** [s1 + s2] for two columns of one frame (they share the index). *)
Definition add (s1 s2 : Series) : result Series :=
  traverse (fun p => py_add (fst p) (snd p)) (combine s1 s2).

(** [s + a] for a numpy array [a]: the lengths must agree. *)
Definition add_array (s : Series) (a : list Q) : result Series :=
  if Nat.eqb (length s) (length a)
  then traverse (fun p => py_add (fst p) (PyFloat (snd p))) (combine s a)
  else inl (ValueError "operands could not be broadcast together").

Definition clip_value (lower upper : Q) (v : pyval) : result pyval :=
  match v with
  | PyFloat x => inr (PyFloat (Qmin (Qmax x lower) upper))
  | PyStr _ => inl (TypeError "'>=' not supported between instances of 'str' and 'int'")
  end.

(** [s.clip(lower, upper)] *)
Definition clip (lower upper : Q) (s : Series) : result Series :=
  traverse (clip_value lower upper) s.

Definition to_float (v : pyval) : result Q :=
  match v with
  | PyFloat x => inr x
  | PyStr s => inl (TypeError ("Could not convert string '" +:+ s +:+ "' to numeric"))
  end.

Definition Qsum (xs : list Q) : Q := fold_right Qplus 0%Q xs.

(** [s.mean()]: the sum over the count (the mean of no value, NaN in pandas,
    is never used by a row). *)
Definition mean (s : Series) : result Q :=
  rbind (traverse to_float s) (fun xs => inr (Qsum xs / inject_Z (Z.of_nat (length xs)))%Q).

End pd.

(** ** The external world *)

(** A fitted scikit-learn estimator, seen through the methods the programs
    call. [feature_names_in_] is the attribute [hasattr] looks for. *)
Record IsolationForest := {
  predict : pd.DataFrame -> result (list Z);
  decision_function : pd.DataFrame -> result (list Q);
  feature_names_in_ : option (list string);
}.

(** What a file holds: a table [pd.read_csv] can parse, an estimator
    [joblib.load] can read back, or anything else. *)
Inductive file :=
| CsvFile (table : pd.DataFrame)
| JoblibFile (model : IsolationForest)
| OtherFile (content : string).

(** A path is a directory and a file name in it. *)
Definition path : Type := string * string.

Definition os_path_join (dir name : string) : path := (dir, name).

(** The path as the f-strings print it. *)
Definition path_str (p : path) : string := fst p +:+ "/" +:+ snd p.

(** The libraries the programs call and the development does not look into. *)
Record externals := {
  (** numpy's global generator: its state and one draw of [random_sample()] *)
  rng_state : Type;
  random_sample : rng_state -> Q * rng_state;
  (** [IsolationForest(n_estimators, contamination, random_state).fit(X)] *)
  fit : Z -> Q -> Z -> pd.DataFrame -> result IsolationForest;
  (** [kagglehub.dataset_download(handle)]: the cache directory and the files
      it then holds, or the failure *)
  dataset_download : string -> result (string * list (string * file));
  (** text rendering: [DataFrame.to_string()], [DataFrame.describe()], the
      [repr] of a float *)
  to_string : pd.DataFrame -> string;
  describe : pd.DataFrame -> pd.DataFrame;
  repr_float : Q -> string;
}.

Section Programs.

Context (ext : externals).

(** The state both programs run in: the mounted volumes, the service's
    module-level [ml_models] dictionary, numpy's generator, and what was
    printed. *)
Record world := {
  fs : gmap path file;
  ml_models : gmap string (option IsolationForest);
  rng : rng_state ext;
  stdout : list string;
}.

Definition set_fs (f : gmap path file) (w : world) : world :=
  {| fs := f; ml_models := ml_models w; rng := rng w; stdout := stdout w |}.

Definition set_ml_models (m : gmap string (option IsolationForest)) (w : world) : world :=
  {| fs := fs w; ml_models := m; rng := rng w; stdout := stdout w |}.

Definition set_rng (r : rng_state ext) (w : world) : world :=
  {| fs := fs w; ml_models := ml_models w; rng := r; stdout := stdout w |}.

Definition set_stdout (o : list string) (w : world) : world :=
  {| fs := fs w; ml_models := ml_models w; rng := rng w; stdout := o |}.

(** A statement: it returns or raises, and leaves a state either way. *)
Definition M (A : Type) : Type := world -> result A * world.

Definition ret {A} (a : A) : M A := fun w => (inr a, w).

Definition bind {A B} (m : M A) (k : A -> M B) : M B :=
  fun w => match m w with
           | (inl e, w') => (inl e, w')
           | (inr a, w') => k a w'
           end.

Definition raise {A} (e : exn) : M A := fun w => (inl e, w).

(** A pure library call that may raise. *)
Definition lift {A} (r : result A) : M A := fun w => (r, w).

(** [try: body / except Exception as e: handler e] *)
Definition try_except {A} (body : M A) (handler : exn -> M A) : M A :=
  fun w => match body w with
           | (inl e, w') => handler e w'
           | (inr a, w') => (inr a, w')
           end.

#[local] Instance M_ret : MRet M := @ret.
#[local] Instance M_bind : MBind M := fun A B k m => bind m k.

Definition print (line : string) : M unit :=
  fun w => (inr tt, set_stdout (stdout w ++ [line]) w).

(** *** numpy.random *)

(** [np.random.uniform(low, high)]: [low + (high - low) * random_sample()] *)
Definition np_random_uniform (low high : Q) : M Q :=
  fun w => let '(u, r) := random_sample ext (rng w) in
           (inr (low + (high - low) * u)%Q, set_rng r w).

(** [np.random.uniform(low, high, size=n)]: [n] draws, in order. *)
Fixpoint np_random_uniform_array (low high : Q) (n : nat) : M (list Q) :=
  match n with
  | O => ret []
  | S n' => x ← np_random_uniform low high;
            xs ← np_random_uniform_array low high n';
            ret (x :: xs)
  end.

(** *** os, shutil, pandas and joblib on the file system *)

Definition os_path_exists (p : path) : M bool :=
  fun w => (inr (bool_decide (is_Some (fs w !! p))), w).

Definition os_listdir (dir : string) : M (list string) :=
  fun w => (inr (omap (fun '((d, n), _) => if String.eqb d dir then Some n else None)
                      (map_to_list (fs w))), w).

Definition shutil_move (src dst : path) : M unit :=
  fun w => match fs w !! src with
           | Some f => (inr tt, set_fs (<[dst := f]> (delete src (fs w))) w)
           | None => (inl (FileNotFoundError ("No such file or directory: '" +:+ path_str src +:+ "'")), w)
           end.

Definition pd_read_csv (p : path) : M pd.DataFrame :=
  fun w => match fs w !! p with
           | Some (CsvFile df) => (inr df, w)
           | Some _ => (inl (Exception "Error tokenizing data"), w)
           | None => (inl (FileNotFoundError ("No such file or directory: '" +:+ path_str p +:+ "'")), w)
           end.

(** [joblib.dump(model, p)], into a directory that exists (the mounted
    results volume): the file then holds the estimator. *)
Definition joblib_dump (model : IsolationForest) (p : path) : M unit :=
  fun w => (inr tt, set_fs (<[p := JoblibFile model]> (fs w)) w).

Definition joblib_load (p : path) : M IsolationForest :=
  fun w => match fs w !! p with
           | Some (JoblibFile m) => (inr m, w)
           | Some _ => (inl (Exception "could not unpickle the file"), w)
           | None => (inl (FileNotFoundError ("No such file or directory: '" +:+ path_str p +:+ "'")), w)
           end.

(** [kagglehub.dataset_download(handle)]: on success the files are in the
    cache directory; on failure nothing was written. *)
Definition kagglehub_dataset_download (handle : string) : M string :=
  fun w => match dataset_download ext handle with
           | inl e => (inl e, w)
           | inr (dir, files) =>
               (inr dir, set_fs (foldr (fun '(n, f) m => <[os_path_join dir n := f]> m) (fs w) files) w)
           end.

(** [a[0]] on a numpy array *)
Definition first {A} (a : list A) : M A :=
  match a with
  | x :: _ => ret x
  | [] => raise (IndexError "index 0 is out of bounds for axis 0 with size 0")
  end.

(** [for x in l: body x] *)
Fixpoint for_each {A} (l : list A) (body : A -> M unit) : M unit :=
  match l with
  | [] => ret tt
  | x :: l' => body x;; for_each l' body
  end.

Definition newline : string := String (Ascii.ascii_of_nat 10) EmptyString.

(** ** Configuration (both files) *)

Definition DATA_DIR : string := "/data".
Definition RESULTS_DIR : string := "/results".
Definition DATA_FILE : string := "predictive_maintenance.csv".
Definition FILE_PATH : path := os_path_join DATA_DIR DATA_FILE.
Definition MODEL_SAVE_PATH : path := os_path_join RESULTS_DIR "isolation_forest_model.joblib".
Definition MODEL_PATH : path := os_path_join RESULTS_DIR "isolation_forest_model.joblib".

(** ** main.py: the scoring service *)

(** [SensorReading]: pydantic declares both fields [float], and FastAPI
    checks a request body against them before it calls the handler (see
    [validate] below); the handler body itself works on whatever the object
    holds. *)
Record SensorReading := {
  temperature_k : pyval;
  rotational_speed_rpm : pyval;
}.

Record PredictionResponse := {
  is_anomaly : bool;
  anomaly_score : Q;
  status : string;
}.

(** [ml_models[key] = value] and [ml_models.clear()] *)
Definition ml_models_setitem (key : string) (value : option IsolationForest) : M unit :=
  fun w => (inr tt, set_ml_models (<[key := value]> (ml_models w)) w).

Definition ml_models_clear : M unit :=
  fun w => (inr tt, set_ml_models ∅ w).

(** [lifespan], up to its [yield]: load the model on startup. *)
Definition lifespan_startup : M unit :=
  found ← os_path_exists MODEL_PATH;
  if found : bool then
    print ("Loading model from " +:+ path_str MODEL_PATH +:+ "...");;
    model ← joblib_load MODEL_PATH;
    ml_models_setitem "isolation_forest" (Some model)
  else
    print "Model not found! Please run the training script first or ensure persistence.";;
    ml_models_setitem "isolation_forest" None.

(** [lifespan], after its [yield]: clean up on shutdown. *)
Definition lifespan_shutdown : M unit :=
  ml_models_clear.

(** [ml_models[key]] *)
Definition ml_models_getitem (key : string) : M (option IsolationForest) :=
  fun w => match ml_models w !! key with
           | Some v => (inr v, w)
           | None => (inl (KeyError key), w)
           end.

Definition engineer_single_row (temp_k rpm : pyval) : M pd.DataFrame :=
  (* 1. Create DataFrame *)
  df ← lift (pd.from_rows [[temp_k; rpm]] ["Air temperature [K]"; "Rotational speed [rpm]"]);
  (* 2. Rename *)
  let df := pd.rename [("Rotational speed [rpm]", "sound_volume_proxy")] df in
  (* 3. Kelvin to Celsius *)
  kelvin ← lift (pd.getitem "Air temperature [K]" df);
  celsius ← lift (pd.sub_scalar kelvin 273.15);
  df ← lift (pd.setitem "temperature_celsius" celsius df);
  df ← lift (pd.drop "Air temperature [K]" df);
  (* 4. Synthetic humidity *)
  let base_humidity := 45.0%Q in
  let temp_mean := 26.85%Q in
  let rpm_mean := 1538.0%Q in
  let temp_weight := (-0.5)%Q in
  let rpm_weight := 0.005%Q in
  tc ← lift (pd.getitem "temperature_celsius" df);
  dt ← lift (pd.sub_scalar tc temp_mean);
  dt ← lift (pd.mul_scalar dt temp_weight);
  acc ← lift (pd.scalar_add base_humidity dt);
  sv ← lift (pd.getitem "sound_volume_proxy" df);
  dr ← lift (pd.sub_scalar sv rpm_mean);
  dr ← lift (pd.mul_scalar dr rpm_weight);
  humidity ← lift (pd.add acc dr);
  (* Add slight random noise *)
  noise ← np_random_uniform (-0.5) 0.5;
  noisy ← lift (pd.add_scalar humidity noise);
  clipped ← lift (pd.clip 0 100 noisy);
  df ← lift (pd.setitem "humidity" clipped df);
  (* Reorder to match training *)
  lift (pd.getitems ["sound_volume_proxy"; "temperature_celsius"; "humidity"] df).

(** [GET /] *)
Definition health_check : M (string * bool) :=
  model ← ml_models_getitem "isolation_forest";
  ret ("running", bool_decide (is_Some model)).

(** [POST /predict] *)
Definition predict_anomaly (reading : SensorReading) : M PredictionResponse :=
  loaded ← ml_models_getitem "isolation_forest";
  match loaded with
  | None => raise (HTTPException 503 "Model not loaded.")
  | Some _ =>
      (* 1. Process Data *)
      processed_data ← try_except
        (engineer_single_row (temperature_k reading) (rotational_speed_rpm reading))
        (fun e => raise (HTTPException 400 ("Feature engineering failed: " +:+ str e)));
      (* 2. Inference *)
      entry ← ml_models_getitem "isolation_forest";
      match entry with
      | None => raise (AttributeError "'NoneType' object has no attribute 'predict'")
      | Some model =>
          prediction ← lift (predict model processed_data);
          score ← lift (decision_function model processed_data);
          p0 ← first prediction;
          (* int(prediction[0] == -1), which the response model reads back as a bool *)
          let is_anomaly := Z.eqb p0 (-1) in
          s0 ← first score;
          ret {| is_anomaly := is_anomaly;
                 anomaly_score := round s0 4;
                 status := if is_anomaly then "ALERT" else "OK" |}
      end
  end.

(** ** from_model_to_production.py: the training job *)

Definition load_data : M (option pd.DataFrame) :=
  print "--- [1/5] Loading Data ---";;
  found ← os_path_exists FILE_PATH;
  available ← (if negb found then
      print ("File not found at " +:+ path_str FILE_PATH +:+ ".");;
      print "Initiating automated download via KaggleHub...";;
      try_except
        ((* 1. Download to temporary cache *)
         cached_path ← kagglehub_dataset_download "shivamb/machine-predictive-maintenance-classification";
         print ("Download complete. Cached at: " +:+ cached_path);;
         (* 2. Locate the specific CSV file in the download *)
         let downloaded_file := os_path_join cached_path DATA_FILE in
         there ← os_path_exists downloaded_file;
         downloaded_file ← (if negb there then
             files ← os_listdir cached_path;
             let csv_files := List.filter (fun f => String.prefix (String.rev ".csv") (String.rev f)) files in
             match csv_files with
             | f :: _ => ret (os_path_join cached_path f)
             | [] => raise (FileNotFoundError "No CSV file found in the downloaded dataset.")
             end
           else ret downloaded_file);
         (* 3. Move the file to our persistent /data volume *)
         print ("Moving file to permanent storage: " +:+ path_str FILE_PATH);;
         shutil_move downloaded_file FILE_PATH;;
         print "File saved permanently.";;
         ret true)
        (fun e =>
           print ("CRITICAL ERROR: Automatic download failed: " +:+ str e);;
           ret false)
    else ret true);
  if available : bool then
    print ("Reading data from: " +:+ path_str FILE_PATH);;
    try_except
      (df ← pd_read_csv FILE_PATH;
       print "Dataset loaded successfully!";;
       print ("Shape: (" +:+ pretty (pd.len df) +:+ ", " +:+ pretty (length df) +:+ ")");;
       ret (Some df))
      (fun e =>
         print ("Error reading CSV file: " +:+ str e);;
         ret None)
  else ret None.

Definition engineer_features (df : pd.DataFrame) : M pd.DataFrame :=
  print (newline +:+ "--- [2/5] Feature Engineering ---");;
  (* 1. Select the raw columns we need *)
  features_df ← lift (pd.getitems ["Air temperature [K]"; "Rotational speed [rpm]"] df);
  (* 2. Rename the Rotational Speed *)
  let features_df := pd.rename [("Rotational speed [rpm]", "sound_volume_proxy")] features_df in
  (* 3. Create the Celsius column from the Kelvin column *)
  kelvin ← lift (pd.getitem "Air temperature [K]" features_df);
  celsius ← lift (pd.sub_scalar kelvin 273.15);
  features_df ← lift (pd.setitem "temperature_celsius" celsius features_df);
  print (newline +:+ "[DEBUG] Checking Celsius Conversion (First 5):");;
  shown ← lift (pd.getitems ["Air temperature [K]"; "temperature_celsius"] features_df);
  print (to_string ext (map (fun '(c, col) => (c, take 5 col)) shown));;
  (* 4. Drop the Kelvin column safely *)
  features_df ← lift (pd.drop "Air temperature [K]" features_df);
  (* 5. Generate synthetic 'humidity' *)
  print "Generating synthetic humidity feature...";;
  let base_humidity := 45.0%Q in
  tc ← lift (pd.getitem "temperature_celsius" features_df);
  temp_mean ← lift (pd.mean tc);
  sv ← lift (pd.getitem "sound_volume_proxy" features_df);
  rpm_mean ← lift (pd.mean sv);
  let temp_weight := (-0.5)%Q in
  let rpm_weight := 0.005%Q in
  tc ← lift (pd.getitem "temperature_celsius" features_df);
  dt ← lift (pd.sub_scalar tc temp_mean);
  dt ← lift (pd.mul_scalar dt temp_weight);
  acc ← lift (pd.scalar_add base_humidity dt);
  sv ← lift (pd.getitem "sound_volume_proxy" features_df);
  dr ← lift (pd.sub_scalar sv rpm_mean);
  dr ← lift (pd.mul_scalar dr rpm_weight);
  humidity ← lift (pd.add acc dr);
  features_df ← lift (pd.setitem "humidity" humidity features_df);
  (* Add noise & Clip *)
  noise ← np_random_uniform_array (-2.5) 2.5 (pd.len features_df);
  humidity ← lift (pd.getitem "humidity" features_df);
  noisy ← lift (pd.add_array humidity noise);
  features_df ← lift (pd.setitem "humidity" noisy features_df);
  humidity ← lift (pd.getitem "humidity" features_df);
  clipped ← lift (pd.clip 0 100 humidity);
  features_df ← lift (pd.setitem "humidity" clipped features_df);
  (* Re-order columns explicitly to ensure consistency for training *)
  features_df ← lift (pd.getitems ["sound_volume_proxy"; "temperature_celsius"; "humidity"] features_df);
  print "Feature engineering complete.";;
  print (to_string ext (describe ext features_df));;
  ret features_df.

Definition train_model (features_df : pd.DataFrame) : M IsolationForest :=
  print (newline +:+ "--- [3/5] Training Isolation Forest ---");;
  print ("Training on features: " +:+ repr_list (pd.columns features_df));;
  model ← lift (fit ext 100 0.05 42 features_df);
  print "Model training complete.";;
  ret model.

Definition save_model (model : IsolationForest) : M unit :=
  print (newline +:+ "--- [4/5] Saving Model ---");;
  joblib_dump model MODEL_SAVE_PATH;;
  print ("Model saved to: " +:+ path_str MODEL_SAVE_PATH).

(** One entry of the simulated stream: its description and its data. *)
Record stream_item := {
  description : string;
  data_temperature_celsius : Q;
  data_humidity : Q;
  data_sound_volume_proxy : Q;
}.

Definition simulated_stream : list stream_item :=
  [ {| description := "Normal Operation (Start of Shift)";
       data_temperature_celsius := 26.0; data_humidity := 45.0; data_sound_volume_proxy := 1500 |};
    {| description := "Normal Operation (Mid-Shift)";
       data_temperature_celsius := 27.5; data_humidity := 42.1; data_sound_volume_proxy := 1550 |};
    {| description := "Anomalous Scenario (High Vibration/Temp)";
       data_temperature_celsius := 35.0; data_humidity := 30.0; data_sound_volume_proxy := 2800 |};
    {| description := "Normal Operation (After Adjustment)";
       data_temperature_celsius := 26.5; data_humidity := 44.0; data_sound_volume_proxy := 1510 |} ].

(** [time.sleep(1)]: time is not part of the state. *)
Definition time_sleep (seconds : Z) : M unit := ret tt.

Definition run_simulation (model : IsolationForest) : M unit :=
  print (newline +:+ "--- [5/5] Running Real-Time Simulation ---");;
  for_each simulated_stream (fun item =>
    print (newline +:+ "[STREAM] New sensor data: " +:+ description item);;
    (* Prepare data for prediction *)
    input_df ← lift (pd.from_rows
      [[PyFloat (data_sound_volume_proxy item); PyFloat (data_temperature_celsius item);
        PyFloat (data_humidity item)]]
      ["sound_volume_proxy"; "temperature_celsius"; "humidity"]);
    try_except
      (prediction ← lift (predict model input_df);
       anomaly_score ← lift (decision_function model input_df);
       p0 ← first prediction;
       let is_anomaly := Z.eqb p0 (-1) in
       s0 ← first anomaly_score;
       let score_val := round s0 4 in
       if is_anomaly
       then print ("[RESULT] ANOMALY DETECTED (Score: " +:+ repr_float ext score_val +:+ ") - Alert sent!")
       else print ("[RESULT] Normal Operation (Score: " +:+ repr_float ext score_val +:+ ")"))
      (fun e =>
         print ("[ERROR] Prediction failed: " +:+ str e);;
         (* Print expected features for debugging *)
         match feature_names_in_ model with
         | Some names => print ("Model expects: " +:+ repr_array names)
         | None => ret tt
         end);;
    time_sleep 1).

Definition main : M unit :=
  (* 1. Load (and download if missing) *)
  df ← load_data;
  match df with
  | None => ret tt
  | Some df =>
      (* 2. Engineer *)
      features_df ← engineer_features df;
      (* 3. Train *)
      model ← train_model features_df;
      (* 4. Save *)
      save_model model;;
      (* 5. Simulate *)
      run_simulation model;;
      print (newline +:+ "--- Pipeline Finished Successfully ---")
  end.

(** ** The service as FastAPI runs it *)

Inductive request :=
| GetRoot
| PostPredict (reading : SensorReading).

(** What the client gets back. An [HTTPException] becomes a response with its
    status and detail; any other exception leaving a handler is answered by
    the framework with a bare 500, and the process keeps serving. *)
Inductive response :=
| Health (running : string) (model_loaded : bool)
| Prediction (body : PredictionResponse)
| HttpError (status_code : Z) (detail : string)
| InternalServerError.

Definition respond {A} (wrap : A -> response) (r : result A) : response :=
  match r with
  | inr a => wrap a
  | inl (HTTPException c d) => HttpError c d
  | inl _ => InternalServerError
  end.

Definition dispatch (req : request) (w : world) : response * world :=
  match req with
  | GetRoot => let '(r, w') := health_check w in (respond (fun '(s, b) => Health s b) r, w')
  | PostPredict reading => let '(r, w') := predict_anomaly reading w in (respond Prediction r, w')
  end.

(** The requests of one run of the service, answered one after the other. *)
Fixpoint serve (reqs : list request) (w : world) : list response * world :=
  match reqs with
  | [] => ([], w)
  | req :: reqs' =>
      let '(r, w1) := dispatch req w in
      let '(rs, w2) := serve reqs' w1 in
      (r :: rs, w2)
  end.

(** [n] draws of [np.random.uniform(low, high)] from generator state [g]. *)
Fixpoint draws (low high : Q) (n : nat) (g : rng_state ext) : list Q * rng_state ext :=
  match n with
  | O => ([], g)
  | S n' => let '(u, g1) := random_sample ext g in
            let '(xs, g2) := draws low high n' g1 in
            ((low + (high - low) * u)%Q :: xs, g2)
  end.

End Programs.

Arguments fs {ext} w.
Arguments ml_models {ext} w.
Arguments rng {ext} w.
Arguments stdout {ext} w.

(** ** The scoring route behind FastAPI's request validation *)

Section Validation.

Context (ext : externals).

(** pydantic reading a JSON string as a number (its lax mode, which FastAPI
    uses for a request body): [None] when the text is no number. *)
Context (float_of_str : string -> option Q).

(** One field declared [float]: a JSON number passes; a JSON string passes
    when it reads as a number, and the handler then gets that number;
    otherwise the field is reported. *)
Definition validate_float (loc : string) (v : pyval) : string + pyval :=
  match v with
  | PyFloat x => inr (PyFloat x)
  | PyStr s =>
      match float_of_str s with
      | Some x => inr (PyFloat x)
      | None => inl ("body." +:+ loc
                     +:+ ": Input should be a valid number, unable to parse string as a number")
      end
  end.

(** The body checked against [SensorReading]: the reading the handler is
    called with, or the report of every failing field. *)
Definition validate (body : SensorReading) : list string + SensorReading :=
  match validate_float "temperature_k" (temperature_k body),
        validate_float "rotational_speed_rpm" (rotational_speed_rpm body) with
  | inr t, inr r => inr {| temperature_k := t; rotational_speed_rpm := r |}
  | inl e1, inl e2 => inl [e1; e2]
  | inl e, inr _ => inl [e]
  | inr _, inl e => inl [e]
  end.

(** A request as the application answers it: the body of [POST /predict] is
    validated before [predict_anomaly] is called; a body that fails is
    answered with status 422 and the report, and the handler is not called. *)
Definition fastapi_dispatch (req : request) (w : world ext) : response * world ext :=
  match req with
  | GetRoot => dispatch ext GetRoot w
  | PostPredict body =>
      match validate body with
      | inl errors => (HttpError 422 (join_with "; " errors), w)
      | inr reading => dispatch ext (PostPredict reading) w
      end
  end.

Fixpoint fastapi_serve (reqs : list request) (w : world ext) : list response * world ext :=
  match reqs with
  | [] => ([], w)
  | req :: reqs' =>
      let '(r, w1) := fastapi_dispatch req w in
      let '(rs, w2) := fastapi_serve reqs' w1 in
      (r :: rs, w2)
  end.

End Validation.

(** ** The feature contract, in the words of the specification *)

Record CalibrationStatistics := {
  temp_mean : Q;
  rpm_mean : Q;
}.

Record FeatureVector := {
  sound_volume_proxy : Q;
  temperature_celsius : Q;
  humidity : Q;
}.

(** Specification 4.1, [transform(reading, calib)], with the noise draw made
    explicit: the rename, the affine conversion, and the clipped synthesis. *)
Definition spec_transform (calib : CalibrationStatistics) (noise : Q) (temperature_kelvin rpm : Q)
  : FeatureVector :=
  let svp := rpm in
  let celsius := (temperature_kelvin - 273.15)%Q in
  {| sound_volume_proxy := svp;
     temperature_celsius := celsius;
     humidity := Qmin (Qmax (45.0 + (celsius - temp_mean calib) * (-0.5)
                                  + (svp - rpm_mean calib) * 0.005 + noise) 0) 100 |}.

Fixpoint spec_transform_all (calib : CalibrationStatistics) (noises temps rpms : list Q)
  : list FeatureVector :=
  match noises, temps, rpms with
  | n :: noises', t :: temps', r :: rpms' =>
      spec_transform calib n t r :: spec_transform_all calib noises' temps' rpms'
  | _, _, _ => []
  end.

(** The frame whose rows are the given vectors, columns in the fixed order. *)
Definition frame_of (rows : list FeatureVector) : pd.DataFrame :=
  [ ("sound_volume_proxy", map (fun v => PyFloat (sound_volume_proxy v)) rows);
    ("temperature_celsius", map (fun v => PyFloat (temperature_celsius v)) rows);
    ("humidity", map (fun v => PyFloat (humidity v)) rows) ].

(** The calibration the serving path carries, and the one the training path
    computes from its corpus. *)
Definition serving_calibration : CalibrationStatistics :=
  {| temp_mean := 26.85; rpm_mean := 1538.0 |}.

Definition corpus_calibration (temps rpms : list Q) : CalibrationStatistics :=
  let celsius := map (fun t => t - 273.15)%Q temps in
  {| temp_mean := (pd.Qsum celsius / inject_Z (Z.of_nat (length temps)))%Q;
     rpm_mean := (pd.Qsum rpms / inject_Z (Z.of_nat (length rpms)))%Q |}.

(** ** simulate_sensors.py: the traffic generator *)

Module simulate_sensors.

(** The libraries the generator calls: the [random] module's generator (its
    state and one draw of [random.random()]) and [math.sin]. *)
Record externals := {
  prng_state : Type;
  random_random : prng_state -> Q * prng_state;
  math_sin : Q -> Q;
}.

Section Generator.

Context (lib : externals).

(** The generator between two [yield]s: the counter [t], the [random]
    module's state, and what it has printed. *)
Record generator := {
  t : nat;
  prng : prng_state lib;
  printed : list string;
}.

(** [random.uniform(a, b)]: [a + (b - a) * random()] *)
Definition random_uniform (a b : Q) (g : prng_state lib) : Q * prng_state lib :=
  let '(u, g') := random_random lib g in ((a + (b - a) * u)%Q, g').

(** The state at the first [next()]: [t = 0]. *)
Definition generate_stream (g : prng_state lib) : generator :=
  {| t := 0; prng := g; printed := [] |}.

(** One turn of the [while True] loop, up to and including [t += 1]: the
    reading it yields and the state it resumes from. *)
Definition next (s : generator) : SensorReading * generator :=
  (* 1. Generate Synthetic Data (Normal) *)
  let '(jitter, g1) := random_uniform (-0.5) 0.5 (prng s) in
  let temp_k := (300 + 2 * math_sin lib (inject_Z (Z.of_nat (t s)) * 0.1) + jitter)%Q in
  let '(spread, g2) := random_uniform (-50) 50 g1 in
  let rpm := (1500 + spread)%Q in
  (* 2. Inject Anomaly (Every 10th step) *)
  let inject := Nat.eqb (t s mod 10) 0 && Nat.ltb 0 (t s) in
  let out := if inject
             then (printed s ++ [newline +:+ "--- INJECTING ANOMALY (High RPM) ---"])%list
             else printed s in
  let rpm := if inject then 2800%Q else rpm in
  ({| temperature_k := PyFloat temp_k; rotational_speed_rpm := PyFloat rpm |},
   {| t := S (t s); prng := g2; printed := out |}).

(** The first [n] readings the generator yields from state [s]. *)
Fixpoint take (n : nat) (s : generator) : list SensorReading * generator :=
  match n with
  | O => ([], s)
  | S n' => let '(x, s1) := next s in
            let '(xs, s2) := take n' s1 in
            (x :: xs, s2)
  end.

End Generator.

End simulate_sensors.

(** ** The feature code over IEEE 754 binary64

    The two feature functions once more, with every number a binary64 float
    and every operation the correctly rounded IEEE one, NaN and the
    infinities included. The columns hold floats only (a numeric CSV column,
    two fields pydantic has validated), so the arithmetic cannot raise; the
    column lookups can. *)

Module binary64.

#[local] Set Warnings "-inexact-float".

Local Open Scope float_scope.

Definition Series : Type := list float.

Definition DataFrame : Type := list (string * Series).

Definition columns (df : DataFrame) : list string := map fst df.

(** [len(df)] *)
Definition len (df : DataFrame) : nat :=
  match df with
  | [] => O
  | (_, s) :: _ => length s
  end.

Fixpoint columns_of (rows : list (list float)) (names : list string) : DataFrame :=
  match names with
  | [] => []
  | c :: cs => (c, map (fun r => hd 0 r) rows) :: columns_of (map (@tl float) rows) cs
  end.

(** [pd.DataFrame(rows, columns=names)] *)
Definition from_rows (rows : list (list float)) (names : list string) : result DataFrame :=
  if forallb (fun r => Nat.eqb (length r) (length names)) rows
  then inr (columns_of rows names)
  else inl (ValueError "columns passed do not match the width of the data").

Fixpoint lookup (c : string) (df : DataFrame) : option Series :=
  match df with
  | [] => None
  | (c', s) :: df' => if String.eqb c c' then Some s else lookup c df'
  end.

(** [df[c]] *)
Definition getitem (c : string) (df : DataFrame) : result Series :=
  match lookup c df with
  | Some s => inr s
  | None => inl (KeyError c)
  end.

Definition missing (cs : list string) (df : DataFrame) : list string :=
  List.filter (fun c => match lookup c df with Some _ => false | None => true end) cs.

(** [df[[c1, ..., cn]]] *)
Definition getitems (cs : list string) (df : DataFrame) : result DataFrame :=
  match traverse (fun c => rbind (getitem c df) (fun s => inr (c, s))) cs with
  | inr out => inr out
  | inl _ =>
      if Nat.eqb (length (missing cs df)) (length cs)
      then inl (KeyError ("None of [Index(" +:+ repr_list cs
                          +:+ ", dtype='object')] are in the [columns]"))
      else inl (KeyError (repr_list (missing cs df) +:+ " not in index"))
  end.

(** [df.rename(columns=m, inplace=True)] *)
Definition rename (m : list (string * string)) (df : DataFrame) : DataFrame :=
  map (fun '(c, s) => (default c (pd.assoc c m), s)) df.

Fixpoint replace (c : string) (s : Series) (df : DataFrame) : DataFrame :=
  match df with
  | [] => [(c, s)]
  | (c', s') :: df' => if String.eqb c c' then (c, s) :: df' else (c', s') :: replace c s df'
  end.

(** [df[c] = s] *)
Definition setitem (c : string) (s : Series) (df : DataFrame) : result DataFrame :=
  match df with
  | [] => inr [(c, s)]
  | _ => if Nat.eqb (length s) (len df)
         then inr (replace c s df)
         else inl (ValueError "Length of values does not match length of index")
  end.

(** [df.drop(columns=[c], inplace=True)] *)
Definition drop (c : string) (df : DataFrame) : result DataFrame :=
  match lookup c df with
  | Some _ => inr (List.filter (fun p => negb (String.eqb c (fst p))) df)
  | None => inl (KeyError ("['" +:+ c +:+ "'] not found in axis"))
  end.

(** [s - x], [s * x], [x + s], [s + x] for a scalar [x]: one IEEE operation
    per element. *)
Definition sub_scalar (s : Series) (x : float) : Series := map (fun v => v - x) s.

Definition mul_scalar (s : Series) (x : float) : Series := map (fun v => v * x) s.

Definition scalar_add (x : float) (s : Series) : Series := map (fun v => x + v) s.

Definition add_scalar (s : Series) (x : float) : Series := map (fun v => v + x) s.

(** [s1 + s2] for two columns of one frame (they share the index). *)
Definition add (s1 s2 : Series) : Series := map (fun p => fst p + snd p) (combine s1 s2).

(** [s + a] for a numpy array [a]: the lengths must agree. *)
Definition add_array (s : Series) (a : list float) : result Series :=
  if Nat.eqb (length s) (length a)
  then inr (map (fun p => fst p + snd p) (combine s a))
  else inl (ValueError "operands could not be broadcast together").

(** One element of [s.clip(lower, upper)]. pandas keeps a value where it is
    missing or [>= lower] and puts [lower] elsewhere, then keeps the result
    where the value is missing or [<= upper] and puts [upper] elsewhere: a
    NaN (a missing value, and every comparison with it is false) stays NaN. *)
Definition clip_value (lower upper x : float) : float :=
  let mask := is_nan x in
  let result := if mask || (lower <=? x) then x else lower in
  if mask || (x <=? upper) then result else upper.

(** [s.clip(lower, upper)] *)
Definition clip (lower upper : float) (s : Series) : Series := map (clip_value lower upper) s.

(** [df.iloc[[i]]] *)
Definition iloc (i : nat) (df : DataFrame) : DataFrame :=
  map (fun '(c, s) => (c, match nth_error s i with Some v => [v] | None => [] end)) df.

(** The libraries the feature code calls and the development does not look
    into. *)
Record externals := {
  (** numpy's global generator: its state and one draw of [random_sample()] *)
  rng_state : Type;
  random_sample : rng_state -> float * rng_state;
  (** [Series.mean()]: the order in which pandas adds the values up, which
      the rounded result depends on, is the library's business *)
  series_mean : Series -> float;
  (** [DataFrame.to_string()] and [DataFrame.describe()] *)
  to_string : DataFrame -> string;
  describe : DataFrame -> DataFrame;
}.

Section FeatureCode.

Context (lib : externals).

(** What the feature code reads and writes of the process: numpy's generator
    and the output stream. *)
Record process := {
  rng : rng_state lib;
  stdout : list string;
}.

Definition M (A : Type) : Type := process -> result A * process.

Definition ret {A} (a : A) : M A := fun p => (inr a, p).

Definition bind {A B} (m : M A) (k : A -> M B) : M B :=
  fun p => match m p with
           | (inl e, p') => (inl e, p')
           | (inr a, p') => k a p'
           end.

Definition lift {A} (r : result A) : M A := fun p => (r, p).

#[local] Instance M_ret : MRet M := @ret.
#[local] Instance M_bind : MBind M := fun A B k m => bind m k.

Definition print (line : string) : M unit :=
  fun p => (inr tt, {| rng := rng p; stdout := (stdout p ++ [line])%list |}).

(** [np.random.uniform(low, high)]: [low + (high - low) * random_sample()] *)
Definition np_random_uniform (low high : float) : M float :=
  fun p => let '(u, g) := random_sample lib (rng p) in
           (inr (low + (high - low) * u), {| rng := g; stdout := stdout p |}).

(** [np.random.uniform(low, high, size=n)]: [n] draws, in order. *)
Fixpoint np_random_uniform_array (low high : float) (n : nat) : M (list float) :=
  match n with
  | O => ret []
  | S n' => x ← np_random_uniform low high;
            xs ← np_random_uniform_array low high n';
            ret (x :: xs)
  end.

(** main.py *)
Definition engineer_single_row (temp_k rpm : float) : M DataFrame :=
  (* 1. Create DataFrame *)
  df ← lift (from_rows [[temp_k; rpm]] ["Air temperature [K]"; "Rotational speed [rpm]"]);
  (* 2. Rename *)
  let df := rename [("Rotational speed [rpm]", "sound_volume_proxy")] df in
  (* 3. Kelvin to Celsius *)
  kelvin ← lift (getitem "Air temperature [K]" df);
  df ← lift (setitem "temperature_celsius" (sub_scalar kelvin 273.15) df);
  df ← lift (drop "Air temperature [K]" df);
  (* 4. Synthetic humidity *)
  let base_humidity := 45.0 in
  let temp_mean := 26.85 in
  let rpm_mean := 1538.0 in
  let temp_weight := -0.5 in
  let rpm_weight := 0.005 in
  tc ← lift (getitem "temperature_celsius" df);
  sv ← lift (getitem "sound_volume_proxy" df);
  let humidity :=
    add (scalar_add base_humidity (mul_scalar (sub_scalar tc temp_mean) temp_weight))
        (mul_scalar (sub_scalar sv rpm_mean) rpm_weight) in
  (* Add slight random noise *)
  noise ← np_random_uniform (-0.5) 0.5;
  df ← lift (setitem "humidity" (clip 0 100 (add_scalar humidity noise)) df);
  (* Reorder to match training *)
  lift (getitems ["sound_volume_proxy"; "temperature_celsius"; "humidity"] df).

(** from_model_to_production.py *)
Definition engineer_features (df : DataFrame) : M DataFrame :=
  print (newline +:+ "--- [2/5] Feature Engineering ---");;
  (* 1. Select the raw columns we need *)
  features_df ← lift (getitems ["Air temperature [K]"; "Rotational speed [rpm]"] df);
  (* 2. Rename the Rotational Speed *)
  let features_df := rename [("Rotational speed [rpm]", "sound_volume_proxy")] features_df in
  (* 3. Create the Celsius column from the Kelvin column *)
  kelvin ← lift (getitem "Air temperature [K]" features_df);
  features_df ← lift (setitem "temperature_celsius" (sub_scalar kelvin 273.15) features_df);
  print (newline +:+ "[DEBUG] Checking Celsius Conversion (First 5):");;
  shown ← lift (getitems ["Air temperature [K]"; "temperature_celsius"] features_df);
  print (to_string lib (map (fun '(c, col) => (c, take 5 col)) shown));;
  (* 4. Drop the Kelvin column safely *)
  features_df ← lift (drop "Air temperature [K]" features_df);
  (* 5. Generate synthetic 'humidity' *)
  print "Generating synthetic humidity feature...";;
  let base_humidity := 45.0 in
  tc ← lift (getitem "temperature_celsius" features_df);
  let temp_mean := series_mean lib tc in
  sv ← lift (getitem "sound_volume_proxy" features_df);
  let rpm_mean := series_mean lib sv in
  let temp_weight := -0.5 in
  let rpm_weight := 0.005 in
  let humidity :=
    add (scalar_add base_humidity (mul_scalar (sub_scalar tc temp_mean) temp_weight))
        (mul_scalar (sub_scalar sv rpm_mean) rpm_weight) in
  features_df ← lift (setitem "humidity" humidity features_df);
  (* Add noise & Clip *)
  noise ← np_random_uniform_array (-2.5) 2.5 (len features_df);
  humidity ← lift (getitem "humidity" features_df);
  noisy ← lift (add_array humidity noise);
  features_df ← lift (setitem "humidity" noisy features_df);
  humidity ← lift (getitem "humidity" features_df);
  features_df ← lift (setitem "humidity" (clip 0 100 humidity) features_df);
  (* Re-order columns explicitly to ensure consistency for training *)
  features_df ← lift (getitems ["sound_volume_proxy"; "temperature_celsius"; "humidity"] features_df);
  print "Feature engineering complete.";;
  print (to_string lib (describe lib features_df));;
  ret features_df.

(** [n] draws of [np.random.uniform(low, high)] from generator state [g]. *)
Fixpoint draws (low high : float) (n : nat) (g : rng_state lib) : list float * rng_state lib :=
  match n with
  | O => ([], g)
  | S n' => let '(u, g1) := random_sample lib g in
            let '(xs, g2) := draws low high n' g1 in
            (low + (high - low) * u :: xs, g2)
  end.

End FeatureCode.

Arguments rng {lib} p.
Arguments stdout {lib} p.

(** *** The feature contract, in the words of the specification *)

Record CalibrationStatistics := {
  temp_mean : float;
  rpm_mean : float;
}.

Record FeatureVector := {
  sound_volume_proxy : float;
  temperature_celsius : float;
  humidity : float;
}.

(** The synthetic humidity before the clamp. *)
Definition noisy_humidity (calib : CalibrationStatistics) (noise temperature_kelvin rpm : float)
  : float :=
  45.0 + (temperature_kelvin - 273.15 - temp_mean calib) * (-0.5)
  + (rpm - rpm_mean calib) * 0.005 + noise.

(** Specification 4.1, [transform(reading, calib)], with the noise draw made
    explicit. *)
Definition transform (calib : CalibrationStatistics) (noise temperature_kelvin rpm : float)
  : FeatureVector :=
  {| sound_volume_proxy := rpm;
     temperature_celsius := temperature_kelvin - 273.15;
     humidity := clip_value 0 100 (noisy_humidity calib noise temperature_kelvin rpm) |}.

Fixpoint transform_all (calib : CalibrationStatistics) (noises temps rpms : list float)
  : list FeatureVector :=
  match noises, temps, rpms with
  | n :: noises', t :: temps', r :: rpms' =>
      transform calib n t r :: transform_all calib noises' temps' rpms'
  | _, _, _ => []
  end.

(** The frame whose rows are the given vectors, columns in the fixed order. *)
Definition frame_of (rows : list FeatureVector) : DataFrame :=
  [ ("sound_volume_proxy", map sound_volume_proxy rows);
    ("temperature_celsius", map temperature_celsius rows);
    ("humidity", map humidity rows) ].

(** The calibration the serving path carries, and the one the training path
    computes from its corpus. *)
Definition serving_calibration : CalibrationStatistics :=
  {| temp_mean := 26.85; rpm_mean := 1538.0 |}.

Definition corpus_calibration (lib : externals) (temps rpms : list float)
  : CalibrationStatistics :=
  {| temp_mean := series_mean lib (map (fun t => t - 273.15) temps);
     rpm_mean := series_mean lib rpms |}.

(** A value inside the closed range [0, 100]. *)
Definition in_range (h : float) : bool := (0 <=? h) && (h <=? 100).

End binary64.

(** ** Stand-ins for the external libraries, for running the programs *)

(** A generator that replays a tape of unit draws, then zeros. *)
Definition replay_sample (tape : list Q) : Q * list Q :=
  match tape with
  | [] => (0%Q, [])
  | u :: tape' => (u, tape')
  end.

Definition feature_names : list string :=
  ["sound_volume_proxy"; "temperature_celsius"; "humidity"].

(** An estimator that answers every row with one label and one score. *)
Definition constant_model (label : Z) (score : Q) : IsolationForest :=
  {| predict := fun X => inr (repeat label (pd.len X));
     decision_function := fun X => inr (repeat score (pd.len X));
     feature_names_in_ := Some feature_names |}.

(** An estimator fitted on another schema: scoring raises. *)
Definition mismatched_model : IsolationForest :=
  {| predict := fun _ => inl (ValueError "X has 3 features, but IsolationForest is expecting 2 features as input.");
     decision_function := fun _ => inl (ValueError "X has 3 features, but IsolationForest is expecting 2 features as input.");
     feature_names_in_ := Some ["temperature_celsius"; "humidity"] |}.

(** Replayed noise, a constant estimator from [fit], no network. *)
Definition test_externals : externals :=
  {| rng_state := list Q;
     random_sample := replay_sample;
     fit := fun _ _ _ _ => inr (constant_model 1 (1 # 10));
     dataset_download := fun _ => inl (Exception "network is unreachable");
     to_string := fun _ => "";
     describe := fun X => X;
     repr_float := fun _ => "" |}.

Definition test_world (files : gmap path file) (registry : gmap string (option IsolationForest))
    (tape : list Q) : world test_externals :=
  {| fs := files; ml_models := registry; rng := tape : rng_state test_externals; stdout := [] |}.

(** A two-row corpus whose Celsius mean is 26.85 and whose rpm mean is 1538,
    and a one-row corpus whose rpm mean is 1500. *)
Definition calibrated_corpus : pd.DataFrame :=
  [ ("UDI", [PyFloat 1; PyFloat 2]);
    ("Air temperature [K]", [PyFloat 299; PyFloat 301]);
    ("Rotational speed [rpm]", [PyFloat 1500; PyFloat 1576]) ].

Definition single_row_corpus : pd.DataFrame :=
  [ ("Air temperature [K]", [PyFloat 300]);
    ("Rotational speed [rpm]", [PyFloat 1500]) ].

Definition numeric_reading : SensorReading :=
  {| temperature_k := PyFloat 300; rotational_speed_rpm := PyFloat 1500 |}.

Definition text_reading : SensorReading :=
  {| temperature_k := PyStr "abc"; rotational_speed_rpm := PyFloat 1500 |}.

(** A service state with the given estimator loaded. *)
Definition loaded_world (model : IsolationForest) (tape : list Q) : world test_externals :=
  test_world ∅ {[ "isolation_forest" := Some model ]} tape.

(** A [random] generator that always draws 1/2, and a sine that is 0. *)
Definition steady_simulator : simulate_sensors.externals :=
  {| simulate_sensors.prng_state := unit;
     simulate_sensors.random_random := fun g => ((1 # 2)%Q, g);
     simulate_sensors.math_sin := fun _ => 0%Q |}.

(** A corpus with no rpm column, one whose temperatures are text, and a
    numeric corpus of no row. *)
Definition corpus_without_rpm : pd.DataFrame :=
  [ ("Air temperature [K]", [PyFloat 299; PyFloat 301]) ].

Definition corpus_with_text : pd.DataFrame :=
  [ ("Air temperature [K]", [PyStr "hot"]);
    ("Rotational speed [rpm]", [PyFloat 1500]) ].

(** The libraries with a download that delivers the given files. *)
Definition externals_with_download (dir : string) (files : list (string * file)) : externals :=
  {| rng_state := list Q;
     random_sample := replay_sample;
     fit := fun _ _ _ _ => inr (constant_model 1 (1 # 10));
     dataset_download := fun _ => inr (dir, files);
     to_string := fun _ => "";
     describe := fun X => X;
     repr_float := fun _ => "" |}.

Definition download_world (dir : string) (files : list (string * file)) (disk : gmap path file)
    : world (externals_with_download dir files) :=
  {| fs := disk; ml_models := ∅;
     rng := [] : rng_state (externals_with_download dir files); stdout := [] |}.



(** Stand-ins for the binary64 layer: a generator that replays a tape of
    unit draws (then zeros), and a mean that adds the values from left to
    right and divides by their count. *)
Definition replay_sample64 (tape : list float) : float * list float :=
  match tape with
  | [] => (0%float, [])
  | u :: tape' => (u, tape')
  end.

Definition sequential_mean (s : binary64.Series) : float :=
  (fold_left PrimFloat.add s 0 / PrimFloat.of_uint63 (Uint63.of_Z (Z.of_nat (length s))))%float.

Definition test_library : binary64.externals :=
  {| binary64.rng_state := list float;
     binary64.random_sample := replay_sample64;
     binary64.series_mean := sequential_mean;
     binary64.to_string := fun _ => "";
     binary64.describe := fun X => X |}.

Definition test_process (tape : list float) : binary64.process test_library :=
  {| binary64.rng := tape : binary64.rng_state test_library; binary64.stdout := [] |}.

(** A five-row corpus whose Celsius values add up without rounding to
    134.25, so that their mean is the float 26.85 in whatever order they are
    added, and whose rpm mean is 1538; and a one-row corpus. *)
Definition calibrated_corpus64 : binary64.DataFrame :=
  [ ("UDI", [1; 2; 3; 4; 5]%float);
    ("Air temperature [K]", [299.4; 298.9; 296.9; 304.9; 299.9]%float);
    ("Rotational speed [rpm]", [1500; 1520; 1538; 1556; 1576]%float) ].

Definition single_row_corpus64 : binary64.DataFrame :=
  [ ("Air temperature [K]", [300]%float);
    ("Rotational speed [rpm]", [1500]%float) ].

(** A two-row corpus of everyday values. *)
Definition plain_corpus64 : binary64.DataFrame :=
  [ ("Air temperature [K]", [299; 301]%float);
    ("Rotational speed [rpm]", [1500; 1576]%float) ].

(** A corpus of finite values so large that their sums overflow. *)
Definition overflowing_corpus64 : binary64.DataFrame :=
  [ ("Air temperature [K]", [1e308; 1e308]%float);
    ("Rotational speed [rpm]", [1e308; 1e308]%float) ].

(** A reading of numbers written as text only: a string of digits. *)
Definition whole_number (s : string) : option Q :=
  option_map (fun u => inject_Z (Z.of_uint u)) (DecimalString.NilZero.uint_of_string s).

(** * Properties *)

(** ** Columns of floats *)

Lemma traverse_map_inr {A B C} (f : B -> result C) (g : A -> B) (h : A -> C) (l : list A) :
  (forall a, f (g a) = inr (h a)) -> traverse f (map g l) = inr (map h l).
Proof.
  intros Hfg. induction l as [|a l IH]; [reflexivity|].
  cbn [map traverse]. rewrite Hfg, IH. reflexivity.
Qed.

Section FloatColumns.

Context {A : Type} (f : A -> Q).

Lemma sub_scalar_floats (l : list A) (x : Q) :
  pd.sub_scalar (map (fun a => PyFloat (f a)) l) x = inr (map (fun a => PyFloat (f a - x)%Q) l).
Proof. apply (traverse_map_inr _ _ (fun a => PyFloat (f a - x)%Q)). reflexivity. Qed.

Lemma mul_scalar_floats (l : list A) (x : Q) :
  pd.mul_scalar (map (fun a => PyFloat (f a)) l) x = inr (map (fun a => PyFloat (f a * x)%Q) l).
Proof. apply (traverse_map_inr _ _ (fun a => PyFloat (f a * x)%Q)). reflexivity. Qed.

Lemma scalar_add_floats (x : Q) (l : list A) :
  pd.scalar_add x (map (fun a => PyFloat (f a)) l) = inr (map (fun a => PyFloat (x + f a)%Q) l).
Proof. apply (traverse_map_inr _ _ (fun a => PyFloat (x + f a)%Q)). reflexivity. Qed.

Lemma add_scalar_floats (l : list A) (x : Q) :
  pd.add_scalar (map (fun a => PyFloat (f a)) l) x = inr (map (fun a => PyFloat (f a + x)%Q) l).
Proof. apply (traverse_map_inr _ _ (fun a => PyFloat (f a + x)%Q)). reflexivity. Qed.

Lemma clip_floats (lo hi : Q) (l : list A) :
  pd.clip lo hi (map (fun a => PyFloat (f a)) l)
  = inr (map (fun a => PyFloat (Qmin (Qmax (f a) lo) hi)) l).
Proof. apply (traverse_map_inr _ _ (fun a => PyFloat (Qmin (Qmax (f a) lo) hi))). reflexivity. Qed.

Lemma mean_floats (l : list A) :
  pd.mean (map (fun a => PyFloat (f a)) l)
  = inr (pd.Qsum (map f l) / inject_Z (Z.of_nat (length l)))%Q.
Proof.
  unfold pd.mean.
  rewrite (traverse_map_inr pd.to_float (fun a => PyFloat (f a)) f) by reflexivity.
  cbn [rbind]. rewrite length_map. reflexivity.
Qed.

Lemma add_array_floats (l : list A) (n : list Q) :
  length l = length n ->
  pd.add_array (map (fun a => PyFloat (f a)) l) n
  = inr (map (fun q => PyFloat (f (fst q) + snd q)%Q) (combine l n)).
Proof.
  intros Hlen. unfold pd.add_array. rewrite length_map, Hlen, Nat.eqb_refl.
  clear Hlen. revert n. induction l as [|x l IH]; intros [|y n]; try reflexivity.
  cbn [map combine traverse]. rewrite IH. reflexivity.
Qed.

End FloatColumns.

Lemma add_floats {A B} (f : A -> Q) (g : B -> Q) (a : list A) (b : list B) :
  pd.add (map (fun x => PyFloat (f x)) a) (map (fun y => PyFloat (g y)) b)
  = inr (map (fun p => PyFloat (f (fst p) + g (snd p))%Q) (combine a b)).
Proof.
  unfold pd.add. revert b. induction a as [|x a IH]; intros [|y b]; try reflexivity.
  cbn [map combine traverse]. rewrite IH. reflexivity.
Qed.

Lemma eqb_length_map {X Y X' Y'} (h : X -> Y) (k : X' -> Y') (l : list X) (l' : list X') :
  length l = length l' -> Nat.eqb (length (map h l)) (length (map k l')) = true.
Proof. intros Hl. rewrite !length_map, Hl. apply Nat.eqb_refl. Qed.

(** The columns of the specified batch transform, one by one. *)
Lemma spec_transform_all_columns (calib : CalibrationStatistics) (temps rpms noises : list Q) :
  length temps = length rpms -> length noises = length rpms ->
  frame_of (spec_transform_all calib noises temps rpms)
  = [ ("sound_volume_proxy", map (fun a => PyFloat a) rpms);
      ("temperature_celsius", map (fun a => PyFloat (a - 273.15)%Q) temps);
      ("humidity",
       map (fun q : Q * Q * Q =>
              PyFloat (Qmin (Qmax (45.0 + (fst (fst q) - 273.15 - temp_mean calib) * (-0.5)
                                         + (snd (fst q) - rpm_mean calib) * 0.005 + snd q) 0) 100))
           (combine (combine temps rpms) noises)) ].
Proof.
  unfold frame_of. revert rpms noises.
  induction temps as [|t temps IH]; intros [|r rpms] [|n noises] Ht Hn;
    try discriminate; try reflexivity.
  cbn [length] in Ht, Hn.
  specialize (IH rpms noises ltac:(congruence) ltac:(congruence)).
  cbn [spec_transform_all map combine].
  injection IH as -> -> ->. reflexivity.
Qed.

Section FeatureProperties.

Context (ext : externals).

Ltac qcbn :=
  cbn -[Qplus Qminus Qmult Qdiv Qopp Qmin Qmax Qinv inject_Z Z.of_nat append Qle Qlt Qeq].

Lemma np_random_uniform_array_draws (lo hi : Q) (n : nat) (w : world ext) :
  np_random_uniform_array ext lo hi n w
  = (inr (fst (draws ext lo hi n (rng w))), set_rng ext (snd (draws ext lo hi n (rng w))) w).
Proof.
  revert w. induction n as [|n IH]; intros w.
  - destruct w; reflexivity.
  - cbn [np_random_uniform_array draws]. unfold mbind, M_bind, bind, np_random_uniform.
    destruct (random_sample ext (rng w)) as [u g]. rewrite IH. cbn.
    destruct (draws ext lo hi n g) as [xs g2]. reflexivity.
Qed.

Lemma draws_length (lo hi : Q) (n : nat) (g : rng_state ext) :
  length (fst (draws ext lo hi n g)) = n.
Proof.
  revert g. induction n as [|n IH]; intros g; [reflexivity|].
  cbn [draws]. destruct (random_sample ext g) as [u g1].
  specialize (IH g1). destruct (draws ext lo hi n g1) as [xs g2].
  cbn in *. congruence.
Qed.

(** The serving transform on a numeric reading: it returns, the frame is the
    specified vector under the hard-coded calibration, and one draw is used. *)
Lemma engineer_single_row_floats (t r : Q) (w : world ext) :
  engineer_single_row ext (PyFloat t) (PyFloat r) w
  = (inr (frame_of [spec_transform serving_calibration
                      (-0.5 + (0.5 - -0.5) * fst (random_sample ext (rng w)))%Q t r]),
     set_rng ext (snd (random_sample ext (rng w))) w).
Proof.
  unfold engineer_single_row, mbind, M_bind, bind, lift, np_random_uniform.
  cbn. destruct (random_sample ext (rng w)) as [u g]. reflexivity.
Qed.

(** The training transform on a numeric corpus: it returns, the frame is the
    specified batch transform under the corpus means, and one draw per row is
    used; only the generator and the output stream change. *)
Lemma engineer_features_floats (df : pd.DataFrame) (temps rpms : list Q) (w : world ext) :
  pd.lookup "Air temperature [K]" df = Some (map PyFloat temps) ->
  pd.lookup "Rotational speed [rpm]" df = Some (map PyFloat rpms) ->
  length temps = length rpms ->
  exists w',
    engineer_features ext df w
    = (inr (frame_of (spec_transform_all (corpus_calibration temps rpms)
                        (fst (draws ext (-2.5) 2.5 (length rpms) (rng w))) temps rpms)), w')
    /\ rng w' = snd (draws ext (-2.5) 2.5 (length rpms) (rng w))
    /\ fs w' = fs w /\ ml_models w' = ml_models w.
Proof.
  intros Hk Hr Hlen. destruct w as [f m g o].
  change (map PyFloat temps) with (map (fun a => PyFloat a) temps) in Hk.
  change (map PyFloat rpms) with (map (fun a => PyFloat a) rpms) in Hr.
  rewrite spec_transform_all_columns by (rewrite ?draws_length; congruence).
  unfold corpus_calibration. cbn [temp_mean rpm_mean].
  pose proof (draws_length (-2.5) 2.5 (length rpms) g) as Hd.
  assert (Hc : length (combine temps rpms) = length rpms)
    by (rewrite length_combine; lia).
  assert (Hcc : length (combine (combine temps rpms) (fst (draws ext (-2.5) 2.5 (length rpms) g)))
                = length rpms)
    by (rewrite length_combine, Hc, Hd; lia).
  eexists. split.
  - unfold engineer_features, mbind, M_bind, bind, lift, print, pd.getitems, pd.getitem,
      set_stdout, set_rng.
    cbn [traverse rbind]. rewrite Hk, Hr. qcbn.
    rewrite sub_scalar_floats. unfold pd.setitem. qcbn.
    rewrite !length_map, Nat.eqb_refl. qcbn.
    rewrite !mean_floats. qcbn.
    rewrite sub_scalar_floats. qcbn. rewrite mul_scalar_floats. qcbn.
    rewrite scalar_add_floats. qcbn.
    rewrite sub_scalar_floats. qcbn. rewrite mul_scalar_floats. qcbn.
    rewrite add_floats. qcbn.
    rewrite (eqb_length_map _ _ (combine temps rpms) rpms Hc).
    qcbn. rewrite np_random_uniform_array_draws. qcbn. rewrite length_map.
    rewrite add_array_floats by congruence.
    qcbn.
    rewrite ?length_map, Hcc, Nat.eqb_refl.
    qcbn. rewrite clip_floats. qcbn.
    rewrite ?length_map, Hcc, Nat.eqb_refl.
    qcbn. rewrite map_id.
    reflexivity.
  - qcbn. auto.
Qed.

(** *** Rows of the specified transform *)


(** Whatever the two arguments hold, a frame the serving transform returns
    has the three columns in the fixed order. *)
Lemma engineer_single_row_columns (t r : pyval) (w : world ext) (out : pd.DataFrame) :
  fst (engineer_single_row ext t r w) = inr out -> pd.columns out = feature_names.
Proof.
  destruct t as [t|t], r as [r|r].
  - rewrite engineer_single_row_floats. cbn [fst]. intros [= <-]. reflexivity.
  - unfold engineer_single_row, mbind, M_bind, bind, lift. qcbn. discriminate.
  - unfold engineer_single_row, mbind, M_bind, bind, lift. qcbn. discriminate.
  - unfold engineer_single_row, mbind, M_bind, bind, lift. qcbn. discriminate.
Qed.

(** A serving transform that raises has not touched the state: every
    operation that can fail comes before the noise draw. *)
Lemma engineer_single_row_failure_keeps_state (t r : pyval) (w w' : world ext) (e : exn) :
  engineer_single_row ext t r w = (inl e, w') -> w' = w.
Proof.
  destruct t as [t|t], r as [r|r].
  - rewrite engineer_single_row_floats. discriminate.
  - unfold engineer_single_row, mbind, M_bind, bind, lift. qcbn. congruence.
  - unfold engineer_single_row, mbind, M_bind, bind, lift. qcbn. congruence.
  - unfold engineer_single_row, mbind, M_bind, bind, lift. qcbn. congruence.
Qed.

(** The serving transform leaves the registry and the files alone. *)
Lemma engineer_single_row_keeps_registry (t r : pyval) (w : world ext) :
  ml_models (snd (engineer_single_row ext t r w)) = ml_models w
  /\ fs (snd (engineer_single_row ext t r w)) = fs w.
Proof.
  destruct t as [t|t], r as [r|r].
  - rewrite engineer_single_row_floats. split; reflexivity.
  - unfold engineer_single_row, mbind, M_bind, bind, lift. qcbn. split; reflexivity.
  - unfold engineer_single_row, mbind, M_bind, bind, lift. qcbn. split; reflexivity.
  - unfold engineer_single_row, mbind, M_bind, bind, lift. qcbn. split; reflexivity.
Qed.

(** *** The feature contract *)

(** C2. On both paths the returned frame has the columns
    [sound_volume_proxy; temperature_celsius; humidity], in this order: the
    batch transform of a numeric corpus and the single-row transform of a
    numeric reading both return, with these columns; and a frame the
    single-row transform returns has them for any arguments at all. *)
Theorem feature_order_fixed
    (df : pd.DataFrame) (temps rpms : list Q) (t r : Q) (w w' : world ext) :
  pd.lookup "Air temperature [K]" df = Some (map PyFloat temps) ->
  pd.lookup "Rotational speed [rpm]" df = Some (map PyFloat rpms) ->
  length temps = length rpms ->
  (exists batch single,
      fst (engineer_features ext df w) = inr batch
      /\ fst (engineer_single_row ext (PyFloat t) (PyFloat r) w') = inr single
      /\ pd.columns batch = ["sound_volume_proxy"; "temperature_celsius"; "humidity"]
      /\ pd.columns single = ["sound_volume_proxy"; "temperature_celsius"; "humidity"])
  /\ (forall (a b : pyval) (w0 : world ext) (out : pd.DataFrame),
        fst (engineer_single_row ext a b w0) = inr out ->
        pd.columns out = ["sound_volume_proxy"; "temperature_celsius"; "humidity"]).
Proof.
  intros Hk Hr Hlen. split.
  - destruct (engineer_features_floats df temps rpms w Hk Hr Hlen) as (w1 & Hrun & _).
    eexists _, _. rewrite Hrun, engineer_single_row_floats. cbn [fst].
    repeat split; reflexivity.
  - intros a b w0 out. apply engineer_single_row_columns.
Qed.

End FeatureProperties.

(** ** The feature contract over binary64 *)

Section BinaryFeatureProperties.

Context (lib : binary64.externals).

Local Open Scope float_scope.

Lemma binary64_uniform_array_draws (lo hi : float) (n : nat) (p : binary64.process lib) :
  binary64.np_random_uniform_array lib lo hi n p
  = (inr (fst (binary64.draws lib lo hi n (binary64.rng p))),
     {| binary64.rng := snd (binary64.draws lib lo hi n (binary64.rng p));
        binary64.stdout := binary64.stdout p |}).
Proof.
  revert p. induction n as [|n IH]; intros p.
  - destruct p; reflexivity.
  - cbn [binary64.np_random_uniform_array binary64.draws].
    unfold mbind, binary64.M_bind, binary64.bind, binary64.np_random_uniform.
    destruct (binary64.random_sample lib (binary64.rng p)) as [u g]. rewrite IH.
    cbn [binary64.rng binary64.stdout fst snd].
    destruct (binary64.draws lib lo hi n g) as [xs g2]. reflexivity.
Qed.

Lemma binary64_draws_length (lo hi : float) (n : nat) (g : binary64.rng_state lib) :
  length (fst (binary64.draws lib lo hi n g)) = n.
Proof.
  revert g. induction n as [|n IH]; intros g; [reflexivity|].
  cbn [binary64.draws]. destruct (binary64.random_sample lib g) as [u g1].
  specialize (IH g1). destruct (binary64.draws lib lo hi n g1) as [xs g2].
  cbn in *. congruence.
Qed.

(** The serving transform: it returns, the frame is the specified vector
    under the hard-coded calibration, and one draw is used. *)
Lemma binary64_single_row (t r : float) (p : binary64.process lib) :
  binary64.engineer_single_row lib t r p
  = (inr (binary64.frame_of
            [binary64.transform binary64.serving_calibration
               (-0.5 + (0.5 - -0.5) * fst (binary64.random_sample lib (binary64.rng p))) t r]),
     {| binary64.rng := snd (binary64.random_sample lib (binary64.rng p));
        binary64.stdout := binary64.stdout p |}).
Proof.
  unfold binary64.engineer_single_row, mbind, binary64.M_bind, binary64.bind, binary64.lift,
    binary64.np_random_uniform.
  cbn. destruct (binary64.random_sample lib (binary64.rng p)) as [u g]. reflexivity.
Qed.

(** The columns of the specified batch transform, as the column arithmetic
    of the training code produces them. *)
Lemma binary64_transform_all_columns (calib : binary64.CalibrationStatistics)
    (temps rpms noises : list float) :
  length temps = length rpms -> length noises = length rpms ->
  binary64.frame_of (binary64.transform_all calib noises temps rpms)
  = [ ("sound_volume_proxy", rpms);
      ("temperature_celsius", binary64.sub_scalar temps 273.15);
      ("humidity",
       binary64.clip 0 100
         (map (fun q => fst q + snd q)
            (combine
               (binary64.add
                  (binary64.scalar_add 45.0
                     (binary64.mul_scalar
                        (binary64.sub_scalar (binary64.sub_scalar temps 273.15)
                           (binary64.temp_mean calib)) (-0.5)))
                  (binary64.mul_scalar (binary64.sub_scalar rpms (binary64.rpm_mean calib)) 0.005))
               noises))) ].
Proof.
  unfold binary64.frame_of. revert rpms noises.
  induction temps as [|t temps IH]; intros [|r rpms] [|n noises] Ht Hn;
    try discriminate; try reflexivity.
  cbn [length] in Ht, Hn.
  specialize (IH rpms noises ltac:(congruence) ltac:(congruence)).
  injection IH as IH1 IH2 IH3.
  cbn [binary64.transform_all map].
  rewrite IH1, IH2, IH3. reflexivity.
Qed.

Lemma binary64_humidity_length (a b : binary64.Series) (x tm tw rm rw : float) :
  length a = length b ->
  length (binary64.add
            (binary64.scalar_add x (binary64.mul_scalar (binary64.sub_scalar a tm) tw))
            (binary64.mul_scalar (binary64.sub_scalar b rm) rw)) = length b.
Proof.
  intros Hlen.
  unfold binary64.add, binary64.scalar_add, binary64.mul_scalar, binary64.sub_scalar.
  rewrite length_map, length_combine, !length_map. lia.
Qed.

(** The training transform on a corpus with the two raw columns: it returns,
    the frame is the specified batch transform under the corpus means, and
    one draw per row is used. *)
Lemma binary64_features (df : binary64.DataFrame) (temps rpms : list float)
    (p : binary64.process lib) :
  binary64.lookup "Air temperature [K]" df = Some temps ->
  binary64.lookup "Rotational speed [rpm]" df = Some rpms ->
  length temps = length rpms ->
  exists p',
    binary64.engineer_features lib df p
    = (inr (binary64.frame_of
              (binary64.transform_all (binary64.corpus_calibration lib temps rpms)
                 (fst (binary64.draws lib (-2.5) 2.5 (length rpms) (binary64.rng p)))
                 temps rpms)), p')
    /\ binary64.rng p' = snd (binary64.draws lib (-2.5) 2.5 (length rpms) (binary64.rng p)).
Proof.
  intros Hk Hr Hlen. destruct p as [g o].
  rewrite binary64_transform_all_columns by (rewrite ?binary64_draws_length; congruence).
  pose proof (binary64_draws_length (-2.5) 2.5 (length rpms) g) as Hd.
  eexists. split.
  - unfold binary64.engineer_features, mbind, binary64.M_bind, binary64.bind, binary64.lift,
      binary64.print, binary64.getitems, binary64.getitem.
    cbn [traverse rbind]. rewrite Hk, Hr.
    cbn -[append binary64.sub_scalar binary64.mul_scalar binary64.scalar_add binary64.add
          binary64.clip binary64.add_array binary64.np_random_uniform_array take].
    unfold binary64.setitem.
    cbn -[append binary64.mul_scalar binary64.scalar_add binary64.add
          binary64.clip binary64.add_array binary64.np_random_uniform_array take].
    unfold binary64.sub_scalar at 1. rewrite length_map, Nat.eqb_refl.
    cbn -[append binary64.sub_scalar binary64.mul_scalar binary64.scalar_add binary64.add
          binary64.clip binary64.add_array binary64.np_random_uniform_array take].
    rewrite binary64_humidity_length
      by (unfold binary64.sub_scalar; rewrite length_map; exact Hlen).
    rewrite Nat.eqb_refl.
    cbn -[append binary64.sub_scalar binary64.mul_scalar binary64.scalar_add binary64.add
          binary64.clip binary64.add_array binary64.np_random_uniform_array take].
    rewrite binary64_uniform_array_draws.
    cbn -[append binary64.sub_scalar binary64.mul_scalar binary64.scalar_add binary64.add
          binary64.clip binary64.add_array binary64.draws take].
    unfold binary64.add_array.
    rewrite binary64_humidity_length
      by (unfold binary64.sub_scalar; rewrite length_map; exact Hlen).
    rewrite Hd, Nat.eqb_refl.
    cbn -[append binary64.sub_scalar binary64.mul_scalar binary64.scalar_add binary64.add
          binary64.clip binary64.draws take].
    match goal with
    | |- context [Nat.eqb (length (map ?f (combine ?a ?b))) (length rpms)] =>
        assert (Hn : length (map f (combine a b)) = length rpms)
          by (rewrite length_map, length_combine, binary64_humidity_length, Hd;
              [lia | unfold binary64.sub_scalar; rewrite length_map; exact Hlen])
    end.
    rewrite Hn, Nat.eqb_refl.
    cbn -[append binary64.sub_scalar binary64.mul_scalar binary64.scalar_add binary64.add
          binary64.clip binary64.draws take].
    unfold binary64.clip at 1. rewrite length_map, Hn, Nat.eqb_refl.
    cbn -[append binary64.sub_scalar binary64.mul_scalar binary64.scalar_add binary64.add
          binary64.clip binary64.draws take].
    reflexivity.
  - reflexivity.
Qed.

Lemma binary64_transform_all_nth (calib : binary64.CalibrationStatistics)
    (noises temps rpms : list float) (i : nat) (n t r : float) :
  nth_error noises i = Some n -> nth_error temps i = Some t -> nth_error rpms i = Some r ->
  nth_error (binary64.transform_all calib noises temps rpms) i
  = Some (binary64.transform calib n t r).
Proof.
  revert noises temps rpms.
  induction i as [|i IH]; intros [|n' ns] [|t' ts] [|r' rs] Hn Ht Hr; try discriminate.
  - cbn in *. congruence.
  - cbn in *. apply IH; assumption.
Qed.

Lemma binary64_transform_all_length (calib : binary64.CalibrationStatistics)
    (noises temps rpms : list float) :
  length temps = length rpms -> length noises = length rpms ->
  length (binary64.transform_all calib noises temps rpms) = length temps.
Proof.
  revert temps rpms.
  induction noises as [|n ns IH]; intros [|t ts] [|r rs] Ht Hn; try discriminate;
    try reflexivity.
  cbn [binary64.transform_all length] in *. rewrite IH; congruence.
Qed.

Lemma binary64_iloc_frame_of (rows : list binary64.FeatureVector) (i : nat)
    (v : binary64.FeatureVector) :
  nth_error rows i = Some v -> binary64.iloc i (binary64.frame_of rows) = binary64.frame_of [v].
Proof.
  intros Hv. unfold binary64.iloc, binary64.frame_of. cbn [map].
  rewrite !nth_error_map, Hv. reflexivity.
Qed.

(** The clamp does its work on every value that is a number, the two
    infinities included, and on no other. *)
Lemma clip_value_in_range (x : float) :
  is_nan x = false -> binary64.in_range (binary64.clip_value 0 100 x) = true.
Proof.
  intros Hnum. unfold binary64.in_range, binary64.clip_value. rewrite Hnum. cbn [orb].
  destruct (0 <=? x) eqn:Hlo, (x <=? 100) eqn:Hhi; try reflexivity.
  rewrite Hlo, Hhi. reflexivity.
Qed.

Lemma clip_value_nan (lower upper x : float) :
  is_nan x = true -> binary64.clip_value lower upper x = x.
Proof. intros Hnan. unfold binary64.clip_value. rewrite Hnan. reflexivity. Qed.

Lemma SFeqb_irrefl_nan (f : spec_float) : SFeqb f f = false -> f = S754_nan.
Proof.
  unfold SFeqb, SFcompare. destruct f as [s|s| |s m e]; try reflexivity.
  - discriminate.
  - destruct s; discriminate.
  - destruct s; rewrite Z.compare_refl, Pos.compare_cont_refl; discriminate.
Qed.

(** NaN compares false with everything: it is outside the range. *)
Lemma nan_not_in_range (h : float) : is_nan h = true -> binary64.in_range h = false.
Proof.
  unfold is_nan, binary64.in_range. intros Hnan. apply Bool.negb_true_iff in Hnan.
  rewrite FloatAxioms.eqb_spec in Hnan. apply SFeqb_irrefl_nan in Hnan.
  rewrite FloatAxioms.leb_spec, Hnan. reflexivity.
Qed.

Lemma clip_value_nan_or_in_range (x : float) :
  is_nan (binary64.clip_value 0 100 x) = true
  \/ binary64.in_range (binary64.clip_value 0 100 x) = true.
Proof.
  destruct (is_nan x) eqn:Hx.
  - left. rewrite clip_value_nan; assumption.
  - right. apply clip_value_in_range, Hx.
Qed.

Lemma transform_all_nan_or_in_range (calib : binary64.CalibrationStatistics)
    (noises temps rpms : list float) :
  Forall (fun h => is_nan h = true \/ binary64.in_range h = true)
    (map binary64.humidity (binary64.transform_all calib noises temps rpms)).
Proof.
  revert temps rpms.
  induction noises as [|n ns IH]; intros [|t ts] [|r rs]; cbn [binary64.transform_all map];
    try apply List.Forall_nil.
  apply List.Forall_cons; [apply clip_value_nan_or_in_range | apply IH].
Qed.

(** C1, as amended. The serving transform carries the fixed calibration
    [temp_mean = 26.85], [rpm_mean = 1538.0]: its vector is the specified
    transform under these two constants, whatever corpus the model was
    trained on, and it reads no mean of a training run. For row [i] of a
    corpus whose Celsius and rpm means (as pandas computes them, in binary64)
    are these two floats, and for equal noise draws, the serving transform of
    that reading returns bit for bit the row [i] of the training transform. *)
Theorem calibrated_serving_matches_training
    (df : binary64.DataFrame) (temps rpms : list float) (p p' : binary64.process lib)
    (i : nat) (t r n : float) :
  binary64.lookup "Air temperature [K]" df = Some temps ->
  binary64.lookup "Rotational speed [rpm]" df = Some rpms ->
  length temps = length rpms ->
  nth_error temps i = Some t ->
  nth_error rpms i = Some r ->
  binary64.temp_mean (binary64.corpus_calibration lib temps rpms) = 26.85 ->
  binary64.rpm_mean (binary64.corpus_calibration lib temps rpms) = 1538.0 ->
  nth_error (fst (binary64.draws lib (-2.5) 2.5 (length rpms) (binary64.rng p))) i = Some n ->
  n = -0.5 + (0.5 - -0.5) * fst (binary64.random_sample lib (binary64.rng p')) ->
  exists train serve,
    fst (binary64.engineer_features lib df p) = inr train
    /\ fst (binary64.engineer_single_row lib t r p') = inr serve
    /\ serve = binary64.frame_of [binary64.transform binary64.serving_calibration n t r]
    /\ binary64.iloc i train = serve.
Proof.
  intros Hk Hr Hlen Ht Hrp Htm Hrm Hn Hnoise.
  destruct (binary64_features df temps rpms p Hk Hr Hlen) as (p1 & Hrun & _).
  eexists _, _. rewrite Hrun, binary64_single_row. cbn [fst].
  split; [reflexivity|]. split; [reflexivity|]. rewrite <- Hnoise. split; [reflexivity|].
  rewrite (binary64_iloc_frame_of _ i _ (binary64_transform_all_nth _ _ _ _ i n t r Hn Ht Hrp)).
  unfold binary64.corpus_calibration in *. cbn [binary64.temp_mean binary64.rpm_mean] in Htm, Hrm.
  rewrite Htm, Hrm. reflexivity.
Qed.

(** C3, as amended. On both paths the humidity is the clamp of the noisy
    synthetic value, and the clamp acts on numbers only. When the value
    before the clamp is a number (finite or infinite) the humidity lies in
    [0, 100]; when it is NaN (a NaN field, an infinite temperature and an
    infinite rpm pulling the sum both ways, corpus means that overflowed) the
    humidity is NaN, and so outside [0, 100]. So every humidity of a returned
    row is in [0, 100] or NaN. *)
Theorem humidity_clamped_unless_nan
    (df : binary64.DataFrame) (temps rpms : list float) (t r : float)
    (p p' : binary64.process lib) :
  binary64.lookup "Air temperature [K]" df = Some temps ->
  binary64.lookup "Rotational speed [rpm]" df = Some rpms ->
  length temps = length rpms ->
  (exists single h x,
      fst (binary64.engineer_single_row lib t r p') = inr single
      /\ binary64.lookup "humidity" single = Some [h]
      /\ x = binary64.noisy_humidity binary64.serving_calibration
               (-0.5 + (0.5 - -0.5) * fst (binary64.random_sample lib (binary64.rng p'))) t r
      /\ h = binary64.clip_value 0 100 x
      /\ (is_nan x = false -> binary64.in_range h = true)
      /\ (is_nan x = true -> is_nan h = true /\ binary64.in_range h = false))
  /\ (exists batch hs,
        fst (binary64.engineer_features lib df p) = inr batch
        /\ binary64.lookup "humidity" batch = Some hs
        /\ hs = map binary64.humidity
                  (binary64.transform_all (binary64.corpus_calibration lib temps rpms)
                     (fst (binary64.draws lib (-2.5) 2.5 (length rpms) (binary64.rng p)))
                     temps rpms)
        /\ length hs = length temps
        /\ Forall (fun h => is_nan h = true \/ binary64.in_range h = true) hs).
Proof.
  intros Hk Hr Hlen. split.
  - eexists _, _, _. rewrite binary64_single_row. cbn [fst].
    split; [reflexivity|]. split; [reflexivity|]. split; [reflexivity|].
    split; [reflexivity|]. split.
    + apply clip_value_in_range.
    + intros Hnan. cbn [binary64.humidity binary64.transform].
      rewrite clip_value_nan by assumption.
      split; [assumption | apply nan_not_in_range; assumption].
  - destruct (binary64_features df temps rpms p Hk Hr Hlen) as (p1 & Hrun & _).
    eexists _, _. rewrite Hrun. cbn [fst].
    split; [reflexivity|]. split; [reflexivity|]. split; [reflexivity|]. split.
    + rewrite length_map. apply binary64_transform_all_length;
        [exact Hlen | apply binary64_draws_length].
    + apply transform_all_nan_or_in_range.
Qed.

(** C4. On both paths [temperature_celsius] is the one binary64 subtraction
    [kelvin - 273.15], the correctly rounded difference of the input and the
    float 273.15, with no further rounding and no clamp applied to it, and
    [sound_volume_proxy] is the rpm input bit for bit. *)
Theorem celsius_is_the_float_difference
    (df : binary64.DataFrame) (temps rpms : list float) (t r : float)
    (p p' : binary64.process lib) :
  binary64.lookup "Air temperature [K]" df = Some temps ->
  binary64.lookup "Rotational speed [rpm]" df = Some rpms ->
  length temps = length rpms ->
  (exists single,
      fst (binary64.engineer_single_row lib t r p') = inr single
      /\ binary64.lookup "temperature_celsius" single = Some [t - 273.15]
      /\ binary64.lookup "sound_volume_proxy" single = Some [r])
  /\ (exists batch,
        fst (binary64.engineer_features lib df p) = inr batch
        /\ binary64.lookup "temperature_celsius" batch = Some (map (fun k => k - 273.15) temps)
        /\ binary64.lookup "sound_volume_proxy" batch = Some rpms).
Proof.
  intros Hk Hr Hlen. split.
  - eexists. rewrite binary64_single_row. cbn [fst].
    repeat split; reflexivity.
  - destruct (binary64_features df temps rpms p Hk Hr Hlen) as (p1 & Hrun & _).
    eexists. rewrite Hrun. cbn [fst].
    rewrite binary64_transform_all_columns by (rewrite ?binary64_draws_length; congruence).
    repeat split; reflexivity.
Qed.

(** C5, as amended. The noise comes from numpy's process-wide generator:
    neither transform takes a generator or a seed, and the source never seeds
    it. What a run returns is a function of its input and of the generator
    state it starts from: the serving transform uses the next sample of that
    state, the training transform the next sample per row, and both leave the
    generator advanced. So two runs started from equal generator states
    (which a caller gets by re-seeding the global generator before each run)
    return the same vectors and leave equal states, and a second run made
    without re-seeding is computed from the sample after the first one's. *)
Theorem transform_repeats_from_equal_generator_state
    (t r : float) (df : binary64.DataFrame) (temps rpms : list float)
    (p1 p2 : binary64.process lib) :
  binary64.rng p1 = binary64.rng p2 ->
  binary64.lookup "Air temperature [K]" df = Some temps ->
  binary64.lookup "Rotational speed [rpm]" df = Some rpms ->
  length temps = length rpms ->
  (fst (binary64.engineer_single_row lib t r p1)
   = inr (binary64.frame_of
            [binary64.transform binary64.serving_calibration
               (-0.5 + (0.5 - -0.5) * fst (binary64.random_sample lib (binary64.rng p1))) t r])
   /\ fst (binary64.engineer_single_row lib t r p2)
      = fst (binary64.engineer_single_row lib t r p1)
   /\ binary64.rng (snd (binary64.engineer_single_row lib t r p1))
      = snd (binary64.random_sample lib (binary64.rng p1))
   /\ binary64.rng (snd (binary64.engineer_single_row lib t r p2))
      = binary64.rng (snd (binary64.engineer_single_row lib t r p1)))
  /\ (fst (binary64.engineer_features lib df p2) = fst (binary64.engineer_features lib df p1)
      /\ binary64.rng (snd (binary64.engineer_features lib df p2))
         = binary64.rng (snd (binary64.engineer_features lib df p1))
      /\ binary64.rng (snd (binary64.engineer_features lib df p1))
         = snd (binary64.draws lib (-2.5) 2.5 (length rpms) (binary64.rng p1)))
  /\ fst (binary64.engineer_single_row lib t r (snd (binary64.engineer_single_row lib t r p1)))
     = inr (binary64.frame_of
              [binary64.transform binary64.serving_calibration
                 (-0.5 + (0.5 - -0.5)
                         * fst (binary64.random_sample lib
                                  (snd (binary64.random_sample lib (binary64.rng p1))))) t r]).
Proof.
  intros Hsame Hk Hr Hlen.
  destruct (binary64_features df temps rpms p1 Hk Hr Hlen) as (q1 & Hrun1 & Hrng1).
  destruct (binary64_features df temps rpms p2 Hk Hr Hlen) as (q2 & Hrun2 & Hrng2).
  rewrite !binary64_single_row, Hrun1, Hrun2. cbn [fst snd binary64.rng].
  rewrite Hrng1, Hrng2, <- Hsame. repeat split; reflexivity.
Qed.

End BinaryFeatureProperties.

(** ** Rounding *)

Lemma round_half_even_near (y : Q) : (Qabs (inject_Z (round_half_even y) - y) <= 1 # 2)%Q.
Proof.
  unfold round_half_even.
  pose proof (Qfloor_le y) as Hlo. pose proof (Qlt_floor y) as Hhi.
  rewrite inject_Z_plus in Hhi. change (inject_Z 1) with 1%Q in Hhi.
  apply Qabs_Qle_condition.
  destruct (Qcompare_spec (y - inject_Z (Qfloor y)) (1 # 2)) as [He|Hl|Hg];
    [destruct (Z.even (Qfloor y))| |];
    rewrite ?inject_Z_plus; change (inject_Z 1) with 1%Q;
    set (a := inject_Z (Qfloor y)) in *; split; lra.
Qed.

(** [round(x, 4)] is a multiple of 1/10000 within half a unit of [x]. *)
Lemma round_4_near (x : Q) :
  (Qabs (round x 4 - x) <= 1 # 20000)%Q
  /\ exists k : Z, (round x 4 == inject_Z k / 10000)%Q.
Proof.
  unfold round. change (inject_Z (10 ^ 4)) with 10000%Q.
  pose proof (round_half_even_near (x * 10000)) as H.
  apply Qabs_Qle_condition in H. destruct H as [Hlo Hhi]. split.
  - apply Qabs_Qle_condition.
    set (k := inject_Z (round_half_even (x * 10000))) in *.
    assert (E : (k / 10000 - x == (k - x * 10000) * (1 # 10000))%Q) by field.
    rewrite E. split; lra.
  - eexists. reflexivity.
Qed.

(** ** The scoring service *)

Section ServiceProperties.

Context (ext : externals).

(** The answer an unloaded service owes to a request. *)
Definition unloaded_answer (req : request) : response :=
  match req with
  | GetRoot => Health "running" false
  | PostPredict _ => HttpError 503 "Model not loaded."
  end.

Lemma lifespan_startup_absent (w : world ext) :
  fs w !! MODEL_PATH = None ->
  lifespan_startup ext w
  = (inr tt,
     set_ml_models ext (<["isolation_forest" := None]> (ml_models w))
       (set_stdout ext
          (stdout w ++ ["Model not found! Please run the training script first or ensure persistence."])
          w)).
Proof.
  intros Habsent.
  unfold lifespan_startup, mbind, M_bind, bind, os_path_exists.
  rewrite Habsent. reflexivity.
Qed.

Lemma dispatch_unloaded (req : request) (w : world ext) :
  ml_models w !! "isolation_forest" = Some None ->
  dispatch ext req w = (unloaded_answer req, w).
Proof.
  intros Hnone. destruct req as [|reading]; unfold dispatch.
  - unfold health_check, mbind, M_bind, bind, ml_models_getitem. rewrite Hnone. reflexivity.
  - unfold predict_anomaly, mbind, M_bind, bind, ml_models_getitem. rewrite Hnone. reflexivity.
Qed.

Lemma serve_unloaded (reqs : list request) (w : world ext) :
  ml_models w !! "isolation_forest" = Some None ->
  serve ext reqs w = (map unloaded_answer reqs, w).
Proof.
  intros Hnone. induction reqs as [|req reqs IH]; [reflexivity|].
  cbn [serve map]. rewrite (dispatch_unloaded req w Hnone), IH. reflexivity.
Qed.

(** C6. When the artifact is absent at startup, the registry holds [None]
    under the model key, and from then on, in any state with that registry
    (whatever appears on disk later), every request is answered without
    touching the state: a scoring request by the 503 "Model not loaded."
    error, never by a crash, and the health query reports the model as not
    loaded. So the service stays unloaded over any sequence of requests. *)
Theorem unloaded_service_rejects_every_request (w : world ext) :
  fs w !! MODEL_PATH = None ->
  exists w0,
    lifespan_startup ext w = (inr tt, w0)
    /\ ml_models w0 !! "isolation_forest" = Some None
    /\ (forall (w1 : world ext) (reading : SensorReading),
          ml_models w1 = ml_models w0 ->
          predict_anomaly ext reading w1 = (inl (HTTPException 503 "Model not loaded."), w1)
          /\ dispatch ext (PostPredict reading) w1 = (HttpError 503 "Model not loaded.", w1))
    /\ (forall (w1 : world ext) (reqs : list request),
          ml_models w1 = ml_models w0 ->
          serve ext reqs w1 = (map unloaded_answer reqs, w1)).
Proof.
  intros Habsent. eexists. split; [apply lifespan_startup_absent, Habsent|].
  assert (Hreg : forall w1 : world ext,
             ml_models w1 = <["isolation_forest" := None]> (ml_models w) ->
             ml_models w1 !! "isolation_forest" = Some None)
    by (intros w1 ->; apply lookup_insert_eq).
  split; [apply Hreg; reflexivity|]. split.
  - intros w1 reading Hsame. specialize (Hreg w1 Hsame). split.
    + unfold predict_anomaly, mbind, M_bind, bind, ml_models_getitem. rewrite Hreg. reflexivity.
    + apply (dispatch_unloaded (PostPredict reading) w1 Hreg).
  - intros w1 reqs Hsame. apply serve_unloaded, Hreg, Hsame.
Qed.

(** C7. A request that gets through the transform and the two estimator calls
    is answered with [is_anomaly] true exactly when the first prediction is
    -1, [anomaly_score] the first decision value rounded to 4 decimals (a
    multiple of 1/10000 within 1/20000 of the raw value), and [status]
    "ALERT" when anomalous and "OK" otherwise. The decision reads the
    prediction alone: the rounded score takes no part in it. *)
Theorem successful_response_mapping
    (w w1 : world ext) (model : IsolationForest) (reading : SensorReading)
    (X : pd.DataFrame) (p : Z) (ps : list Z) (s : Q) (ss : list Q) :
  ml_models w !! "isolation_forest" = Some (Some model) ->
  engineer_single_row ext (temperature_k reading) (rotational_speed_rpm reading) w = (inr X, w1) ->
  predict model X = inr (p :: ps) ->
  decision_function model X = inr (s :: ss) ->
  predict_anomaly ext reading w
  = (inr {| is_anomaly := Z.eqb p (-1);
            anomaly_score := round s 4;
            status := if Z.eqb p (-1) then "ALERT" else "OK" |}, w1)
  /\ (Z.eqb p (-1) = true <-> p = (-1)%Z)
  /\ (Qabs (round s 4 - s) <= 1 # 20000)%Q
  /\ (exists k : Z, (round s 4 == inject_Z k / 10000)%Q).
Proof.
  intros Hloaded Heng Hp Hs. split; [|split; [apply Z.eqb_eq | apply round_4_near]].
  pose proof (proj1 (engineer_single_row_keeps_registry ext
                       (temperature_k reading) (rotational_speed_rpm reading) w)) as Hreg.
  rewrite Heng in Hreg. cbn [snd] in Hreg.
  unfold predict_anomaly, mbind, M_bind, bind, ml_models_getitem, try_except.
  rewrite Hloaded, Heng, Hreg, Hloaded.
  unfold lift. rewrite Hp, Hs. reflexivity.
Qed.

End ServiceProperties.

(** ** The scoring route behind request validation *)

Section ValidationProperties.

Context (ext : externals) (float_of_str : string -> option Q).

Lemma validate_float_numeric (loc : string) (v v' : pyval) :
  validate_float float_of_str loc v = inr v' -> exists x, v' = PyFloat x.
Proof.
  unfold validate_float. destruct v as [x|s].
  - intros [= <-]. eexists. reflexivity.
  - destruct (float_of_str s) as [x|]; [|discriminate].
    intros [= <-]. eexists. reflexivity.
Qed.

(** A reading that passed validation holds two numbers. *)
Lemma validate_numeric (body reading : SensorReading) :
  validate float_of_str body = inr reading ->
  exists t r, temperature_k reading = PyFloat t /\ rotational_speed_rpm reading = PyFloat r.
Proof.
  unfold validate.
  destruct (validate_float float_of_str "temperature_k" (temperature_k body)) as [e1|t] eqn:Ht,
           (validate_float float_of_str "rotational_speed_rpm" (rotational_speed_rpm body))
             as [e2|r] eqn:Hr; try discriminate.
  intros [= <-]. cbn [temperature_k rotational_speed_rpm].
  destruct (validate_float_numeric _ _ _ Ht) as [x ->].
  destruct (validate_float_numeric _ _ _ Hr) as [y ->].
  eexists _, _. split; reflexivity.
Qed.

Lemma fastapi_dispatch_invalid (body : SensorReading) (errors : list string) (w : world ext) :
  validate float_of_str body = inl errors ->
  fastapi_dispatch ext float_of_str (PostPredict body) w
  = (HttpError 422 (join_with "; " errors), w).
Proof. intros Hbad. unfold fastapi_dispatch. rewrite Hbad. reflexivity. Qed.

Lemma predict_anomaly_feature_failure
    (reading : SensorReading) (e : exn) (w w' : world ext) (model : IsolationForest) :
  ml_models w !! "isolation_forest" = Some (Some model) ->
  engineer_single_row ext (temperature_k reading) (rotational_speed_rpm reading) w = (inl e, w') ->
  predict_anomaly ext reading w
  = (inl (HTTPException 400 ("Feature engineering failed: " +:+ str e)), w).
Proof.
  intros Hloaded Heng.
  pose proof (engineer_single_row_failure_keeps_state ext _ _ _ _ _ Heng) as ->.
  unfold predict_anomaly, mbind, M_bind, bind, ml_models_getitem, try_except.
  rewrite Hloaded, Heng. reflexivity.
Qed.

(** C9, as amended. A request whose body fails validation (a field that is
    no number) is rejected by FastAPI before the handler runs: the client
    gets status 422 with the report of the failing fields, the state is left
    exactly as it was (a loaded service stays loaded), and the requests that
    follow are answered as if the rejected one had never been made. A body
    that passes validation holds two numbers, and on two numbers the feature
    transform returns: over HTTP the handler's "Feature engineering failed"
    answer is never produced. That answer belongs to the handler called on
    unvalidated values: there, a transform that raises [e] is turned into
    status 400 with "Feature engineering failed: " followed by [str e], and
    the state is again left as it was. *)
Theorem invalid_request_is_isolated
    (w : world ext) (body : SensorReading) (errors : list string) (reqs : list request) :
  validate float_of_str body = inl errors ->
  fastapi_dispatch ext float_of_str (PostPredict body) w
  = (HttpError 422 (join_with "; " errors), w)
  /\ fastapi_serve ext float_of_str (PostPredict body :: reqs) w
     = (HttpError 422 (join_with "; " errors) :: fst (fastapi_serve ext float_of_str reqs w),
        snd (fastapi_serve ext float_of_str reqs w))
  /\ (forall (accepted reading : SensorReading) (w0 : world ext),
        validate float_of_str accepted = inr reading ->
        exists X,
          fst (engineer_single_row ext (temperature_k reading) (rotational_speed_rpm reading) w0)
          = inr X)
  /\ (forall (reading : SensorReading) (e : exn) (w0 w0' : world ext) (model : IsolationForest),
        ml_models w0 !! "isolation_forest" = Some (Some model) ->
        engineer_single_row ext (temperature_k reading) (rotational_speed_rpm reading) w0
        = (inl e, w0') ->
        predict_anomaly ext reading w0
        = (inl (HTTPException 400 ("Feature engineering failed: " +:+ str e)), w0)).
Proof.
  intros Hbad.
  pose proof (fastapi_dispatch_invalid body errors w Hbad) as Hrun.
  split; [exact Hrun|]. split; [|split].
  - cbn [fastapi_serve]. rewrite Hrun.
    destruct (fastapi_serve ext float_of_str reqs w) as [rs w2]. reflexivity.
  - intros accepted reading w0 Hok.
    destruct (validate_numeric accepted reading Hok) as (t & r & -> & ->).
    eexists. rewrite engineer_single_row_floats. reflexivity.
  - intros reading e w0 w0' model. apply predict_anomaly_feature_failure.
Qed.

End ValidationProperties.

(** ** The training job *)

Section TrainingProperties.

Context (ext : externals).

(** Without data the job stops right after [load_data]. *)
Lemma main_stops_without_data (w : world ext) :
  fst (load_data ext w) = inr None -> main ext w = (inr tt, snd (load_data ext w)).
Proof.
  intros Hnone. unfold main, mbind, M_bind, bind.
  destruct (load_data ext w) as [[e|[df|]] w1]; cbn [fst snd] in *; try discriminate.
  reflexivity.
Qed.

Lemma load_data_download_failed (w : world ext) (e : exn) :
  fs w !! FILE_PATH = None ->
  dataset_download ext "shivamb/machine-predictive-maintenance-classification" = inl e ->
  load_data ext w
  = (inr None,
     set_stdout ext
       (stdout w ++ [ "--- [1/5] Loading Data ---";
                      "File not found at /data/predictive_maintenance.csv.";
                      "Initiating automated download via KaggleHub...";
                      "CRITICAL ERROR: Automatic download failed: " +:+ str e ]) w).
Proof.
  intros Hmissing Hfail.
  unfold load_data, mbind, M_bind, bind, try_except, print, os_path_exists,
    kagglehub_dataset_download.
  cbn [fs set_stdout stdout]. rewrite Hmissing, Hfail. cbn.
  rewrite <- !app_assoc. reflexivity.
Qed.

(** C10. When the data file is missing and the download fails, the run stops
    after printing the "CRITICAL ERROR" line with the cause: it returns
    without raising, nothing on disk has changed (in particular nothing was
    written at the artifact path) and the save step has printed nothing.
    More generally, whenever [load_data] returns [None] the run ends there,
    before the engineering, training and save steps. *)
Theorem no_artifact_without_data (w : world ext) (e : exn) :
  fs w !! FILE_PATH = None ->
  dataset_download ext "shivamb/machine-predictive-maintenance-classification" = inl e ->
  (exists w',
      main ext w = (inr tt, w')
      /\ fs w' = fs w
      /\ fs w' !! MODEL_SAVE_PATH = fs w !! MODEL_SAVE_PATH
      /\ stdout w' = (stdout w ++ [ "--- [1/5] Loading Data ---";
                                    "File not found at /data/predictive_maintenance.csv.";
                                    "Initiating automated download via KaggleHub...";
                                    "CRITICAL ERROR: Automatic download failed: " +:+ str e ])%list)
  /\ (forall w0 : world ext,
        fst (load_data ext w0) = inr None -> main ext w0 = (inr tt, snd (load_data ext w0))).
Proof.
  intros Hmissing Hfail. split; [|apply main_stops_without_data].
  pose proof (load_data_download_failed w e Hmissing Hfail) as Hload.
  eexists. split.
  - rewrite main_stops_without_data; rewrite Hload; reflexivity.
  - repeat split; reflexivity.
Qed.

End TrainingProperties.

(** ** The theorems at concrete inputs *)

(** C1, the claim as stated fails: on a one-row corpus (300 K, 1500 rpm) the
    training transform centres the reading on the corpus means
    26.850000000000023 and 1500 and returns humidity 45.0; the serving
    transform centres the same reading on its constants 26.85 and 1538.0 and
    returns 44.80999999999999; both with the noise draw 0.0. *)
Lemma uncalibrated_serving_differs :
  exists train serve,
    fst (binary64.engineer_features test_library single_row_corpus64 (test_process [0.5]%float))
    = inr train
    /\ fst (binary64.engineer_single_row test_library 300 1500 (test_process [0.5]%float))
       = inr serve
    /\ (-2.5 + (2.5 - -2.5) * 0.5 = -0.5 + (0.5 - -0.5) * 0.5)%float
    /\ binary64.corpus_calibration test_library [300]%float [1500]%float
       = {| binary64.temp_mean := 26.850000000000023; binary64.rpm_mean := 1500 |}
    /\ binary64.lookup "humidity" train = Some [45.0]%float
    /\ binary64.lookup "humidity" serve = Some [44.80999999999999]%float
    /\ (45.0 =? 44.80999999999999)%float = false.
Proof.
  eexists _, _.
  split; [vm_compute; reflexivity|]. split; [vm_compute; reflexivity|].
  repeat split; vm_compute; reflexivity.
Qed.

Lemma calibrated_serving_witness :
  exists train serve,
    fst (binary64.engineer_features test_library calibrated_corpus64
           (test_process [0.5; 0.5; 0.5; 0.5; 0.5]%float)) = inr train
    /\ fst (binary64.engineer_single_row test_library 299.4 1500 (test_process [0.5]%float))
       = inr serve
    /\ serve = binary64.frame_of
                 [binary64.transform binary64.serving_calibration 0 299.4 1500]
    /\ binary64.iloc 0 train = serve.
Proof.
  apply (calibrated_serving_matches_training test_library calibrated_corpus64
           [299.4; 298.9; 296.9; 304.9; 299.9]%float [1500; 1520; 1538; 1556; 1576]%float
           (test_process [0.5; 0.5; 0.5; 0.5; 0.5]%float) (test_process [0.5]%float)
           0 299.4%float 1500%float 0%float);
    vm_compute; reflexivity.
Defined.

Lemma feature_order_fixed_witness :
  exists batch single,
    fst (engineer_features test_externals calibrated_corpus (test_world ∅ ∅ [1 # 2; 1 # 4]%Q))
    = inr batch
    /\ fst (engineer_single_row test_externals (PyFloat 300) (PyFloat 1500)
              (test_world ∅ ∅ [1 # 2]%Q)) = inr single
    /\ pd.columns batch = ["sound_volume_proxy"; "temperature_celsius"; "humidity"]
    /\ pd.columns single = ["sound_volume_proxy"; "temperature_celsius"; "humidity"].
Proof.
  apply (feature_order_fixed test_externals calibrated_corpus [299; 301]%Q [1500; 1576]%Q
           300%Q 1500%Q (test_world ∅ ∅ [1 # 2; 1 # 4]%Q) (test_world ∅ ∅ [1 # 2]%Q));
    reflexivity.
Defined.

(** C3, the claim as stated fails: a reading whose temperature is NaN, and a
    reading whose temperature and rpm are both infinite, reach the clamp with
    a NaN, and the clamp leaves it: the humidity returned is NaN, which is
    not in [0, 100]. *)
Lemma nan_reading_escapes_the_clamp :
  exists single h single' h',
    fst (binary64.engineer_single_row test_library nan 1500 (test_process [0.5]%float))
    = inr single
    /\ binary64.lookup "humidity" single = Some [h]
    /\ is_nan h = true
    /\ binary64.in_range h = false
    /\ fst (binary64.engineer_single_row test_library infinity infinity
              (test_process [0.5]%float)) = inr single'
    /\ binary64.lookup "humidity" single' = Some [h']
    /\ is_nan h' = true
    /\ binary64.in_range h' = false.
Proof.
  eexists _, _, _, _.
  split; [vm_compute; reflexivity|]. split; [vm_compute; reflexivity|].
  split; [vm_compute; reflexivity|]. split; [vm_compute; reflexivity|].
  split; [vm_compute; reflexivity|]. split; [vm_compute; reflexivity|].
  split; vm_compute; reflexivity.
Qed.

(** Finite values are no protection on the training path: on a corpus whose
    two columns add up to infinity both means are infinite, the two centred
    terms are infinities of opposite signs, and every humidity is NaN. *)
Lemma overflowing_means_escape_the_clamp :
  exists batch,
    fst (binary64.engineer_features test_library overflowing_corpus64
           (test_process [0.5; 0.5]%float)) = inr batch
    /\ binary64.corpus_calibration test_library [1e308; 1e308]%float [1e308; 1e308]%float
       = {| binary64.temp_mean := infinity; binary64.rpm_mean := infinity |}
    /\ binary64.lookup "humidity" batch = Some [nan; nan]%float.
Proof.
  eexists. split; [vm_compute; reflexivity|]. split; vm_compute; reflexivity.
Qed.

(** At the two ends of the finite range the sum before the clamp is an
    infinity, and the humidity is the bound. *)
Lemma humidity_clamped_witness :
  exists single h,
    fst (binary64.engineer_single_row test_library 1e308 (-1e308) (test_process [0.5]%float))
    = inr single
    /\ binary64.lookup "humidity" single = Some [h]
    /\ binary64.in_range h = true.
Proof.
  destruct (humidity_clamped_unless_nan test_library calibrated_corpus64
              [299.4; 298.9; 296.9; 304.9; 299.9]%float [1500; 1520; 1538; 1556; 1576]%float
              1e308%float (-1e308)%float
              (test_process [0.5; 0.5; 0.5; 0.5; 0.5]%float) (test_process [0.5]%float)
              eq_refl eq_refl eq_refl)
    as [(single & h & x & Hrun & Hcol & Hx & _ & Hnum & _) _].
  exists single, h. split; [exact Hrun|]. split; [exact Hcol|].
  apply Hnum. rewrite Hx. vm_compute. reflexivity.
Defined.

Lemma celsius_is_the_float_difference_witness :
  exists batch,
    fst (binary64.engineer_features test_library plain_corpus64 (test_process [0.5; 0.25]%float))
    = inr batch
    /\ binary64.lookup "temperature_celsius" batch
       = Some [25.850000000000023; 27.850000000000023]%float
    /\ binary64.lookup "sound_volume_proxy" batch = Some [1500; 1576]%float.
Proof.
  refine (proj2 (celsius_is_the_float_difference test_library plain_corpus64
                   [299; 301]%float [1500; 1576]%float 300%float 1500%float
                   (test_process [0.5; 0.25]%float) (test_process [0.5]%float) _ _ _));
    reflexivity.
Defined.

(** C5, the claim as stated fails: with the generator seeded once (here the
    stand-in's state after seeding, the tape 0.25, 0.75), two runs of the
    serving transform on the same reading, one after the other, return
    different humidities; and nothing but the process-wide generator can be
    handed to either run. *)
Lemma successive_runs_differ :
  exists first second,
    fst (binary64.engineer_single_row test_library 300 1500 (test_process [0.25; 0.75]%float))
    = inr first
    /\ fst (binary64.engineer_single_row test_library 300 1500
              (snd (binary64.engineer_single_row test_library 300 1500
                      (test_process [0.25; 0.75]%float)))) = inr second
    /\ binary64.lookup "humidity" first = Some [44.55999999999999]%float
    /\ binary64.lookup "humidity" second = Some [45.05999999999999]%float
    /\ (44.55999999999999 =? 45.05999999999999)%float = false.
Proof.
  eexists _, _.
  split; [vm_compute; reflexivity|]. split; [vm_compute; reflexivity|].
  repeat split; vm_compute; reflexivity.
Qed.

Lemma transform_repeats_witness :
  fst (binary64.engineer_single_row test_library 300 1500
         {| binary64.rng := [0.25; 0.75]%float : binary64.rng_state test_library;
            binary64.stdout := ["earlier output"] |})
  = fst (binary64.engineer_single_row test_library 300 1500 (test_process [0.25; 0.75]%float))
  /\ fst (binary64.engineer_features test_library plain_corpus64
            {| binary64.rng := [0.25; 0.75]%float : binary64.rng_state test_library;
               binary64.stdout := ["earlier output"] |})
     = fst (binary64.engineer_features test_library plain_corpus64
              (test_process [0.25; 0.75]%float)).
Proof.
  destruct (transform_repeats_from_equal_generator_state test_library
              300%float 1500%float plain_corpus64 [299; 301]%float [1500; 1576]%float
              (test_process [0.25; 0.75]%float)
              {| binary64.rng := [0.25; 0.75]%float : binary64.rng_state test_library;
                 binary64.stdout := ["earlier output"] |}
              eq_refl eq_refl eq_refl eq_refl)
    as [(_ & Hsingle & _) [(Hbatch & _) _]].
  split; [exact Hsingle | exact Hbatch].
Defined.

Lemma unloaded_service_witness :
  exists w0,
    lifespan_startup test_externals (test_world ∅ ∅ []) = (inr tt, w0)
    /\ ml_models w0 !! "isolation_forest" = Some None
    /\ serve test_externals [GetRoot; PostPredict numeric_reading; PostPredict text_reading] w0
       = ([Health "running" false;
           HttpError 503 "Model not loaded.";
           HttpError 503 "Model not loaded."], w0).
Proof.
  destruct (unloaded_service_rejects_every_request test_externals (test_world ∅ ∅ []))
    as (w0 & Hstart & Hnone & _ & Hserve); [reflexivity|].
  exists w0. split; [exact Hstart|]. split; [exact Hnone|].
  apply (Hserve w0 [GetRoot; PostPredict numeric_reading; PostPredict text_reading]).
  reflexivity.
Defined.

Lemma successful_response_witness :
  fst (predict_anomaly test_externals numeric_reading
         (loaded_world (constant_model (-1) (-0.123456)) [1 # 2]%Q))
  = inr {| is_anomaly := true; anomaly_score := round (-0.123456) 4; status := "ALERT" |}.
Proof.
  refine (f_equal fst (proj1 (successful_response_mapping test_externals
            (loaded_world (constant_model (-1) (-0.123456)) [1 # 2]%Q) _
            (constant_model (-1) (-0.123456)) numeric_reading _ (-1) [] (-0.123456)%Q []
            _ _ _ _))); vm_compute; reflexivity.
Defined.

(** C9, the claim as stated fails: a request whose temperature is the text
    "abc", sent to a loaded service, is answered by request validation with
    status 422; the handler is not called and no "Feature engineering
    failed" answer is produced. (Called directly on that body, without
    validation, the handler would answer 400.) *)
Lemma text_field_is_answered_by_validation :
  fastapi_dispatch test_externals whole_number (PostPredict text_reading)
    (loaded_world (constant_model 1 (1 # 10)) [1 # 2]%Q)
  = (HttpError 422
       "body.temperature_k: Input should be a valid number, unable to parse string as a number",
     loaded_world (constant_model 1 (1 # 10)) [1 # 2]%Q)
  /\ fst (dispatch test_externals (PostPredict text_reading)
            (loaded_world (constant_model 1 (1 # 10)) [1 # 2]%Q))
     = HttpError 400
         "Feature engineering failed: unsupported operand type(s) for -: 'str' and 'float'".
Proof. split; vm_compute; reflexivity. Qed.

Lemma invalid_request_witness :
  fastapi_serve test_externals whole_number
    [PostPredict text_reading; PostPredict numeric_reading]
    (loaded_world (constant_model 1 (1 # 10)) [1 # 2]%Q)
  = (HttpError 422
       (join_with "; "
          ["body.temperature_k: Input should be a valid number, unable to parse string as a number"])
       :: fst (fastapi_serve test_externals whole_number [PostPredict numeric_reading]
                 (loaded_world (constant_model 1 (1 # 10)) [1 # 2]%Q)),
     snd (fastapi_serve test_externals whole_number [PostPredict numeric_reading]
            (loaded_world (constant_model 1 (1 # 10)) [1 # 2]%Q))).
Proof.
  refine (proj1 (proj2 (invalid_request_is_isolated test_externals whole_number
            (loaded_world (constant_model 1 (1 # 10)) [1 # 2]%Q) text_reading
            ["body.temperature_k: Input should be a valid number, unable to parse string as a number"]
            [PostPredict numeric_reading] _))).
  vm_compute; reflexivity.
Defined.

Lemma no_artifact_witness :
  exists w',
    main test_externals (test_world ∅ ∅ []) = (inr tt, w')
    /\ fs w' = ∅
    /\ fs w' !! MODEL_SAVE_PATH = None
    /\ stdout w' = [ "--- [1/5] Loading Data ---";
                     "File not found at /data/predictive_maintenance.csv.";
                     "Initiating automated download via KaggleHub...";
                     "CRITICAL ERROR: Automatic download failed: network is unreachable" ].
Proof.
  refine (proj1 (no_artifact_without_data test_externals (test_world ∅ ∅ [])
                   (Exception "network is unreachable") _ _)); reflexivity.
Defined.

(** C8, the code at a failing input: with an estimator fitted on another
    schema loaded, the scoring call raises inside [predict_anomaly], nothing
    catches it there, and the client gets the bare 500; the message names no
    expected feature. The simulation loop of the training job, on the same
    estimator, catches the failure and prints the expected feature names. *)
Lemma scoring_failure_is_unhandled :
  fst (predict_anomaly test_externals numeric_reading (loaded_world mismatched_model [1 # 2]%Q))
  = inl (ValueError "X has 3 features, but IsolationForest is expecting 2 features as input.")
  /\ fst (dispatch test_externals (PostPredict numeric_reading)
            (loaded_world mismatched_model [1 # 2]%Q)) = InternalServerError
  /\ nth_error (stdout (snd (run_simulation test_externals mismatched_model
                               (loaded_world mismatched_model [1 # 2]%Q)))) 3
     = Some "Model expects: ['temperature_celsius' 'humidity']".
Proof. repeat split; vm_compute; reflexivity. Qed.

(** * Further properties of the two programs and of the traffic generator *)

(** ** What a statement leaves alone, and statements that cannot raise *)

Section Footprint.

Context (ext : externals).

(** A statement that writes neither the disk nor the registry. *)
Definition preserves {A} (m : M ext A) : Prop :=
  forall w, fs (snd (m w)) = fs w /\ ml_models (snd (m w)) = ml_models w.

(** A statement that always returns. *)
Definition total {A} (m : M ext A) : Prop :=
  forall w, exists a, fst (m w) = inr a.

Lemma preserves_ret {A} (a : A) : preserves (ret ext a).
Proof. intros w. split; reflexivity. Qed.

Lemma preserves_raise {A} (e : exn) : preserves (@raise ext A e).
Proof. intros w. split; reflexivity. Qed.

Lemma preserves_lift {A} (r : result A) : preserves (lift ext r).
Proof. intros w. split; reflexivity. Qed.

Lemma preserves_print (line : string) : preserves (print ext line).
Proof. intros w. split; reflexivity. Qed.

Lemma preserves_getitem (key : string) : preserves (ml_models_getitem ext key).
Proof. intros w. unfold ml_models_getitem. destruct (ml_models w !! key); split; reflexivity. Qed.

Lemma preserves_uniform (lo hi : Q) : preserves (np_random_uniform ext lo hi).
Proof.
  intros w. unfold np_random_uniform.
  destruct (random_sample ext (rng w)). split; reflexivity.
Qed.

Lemma preserves_bind {A B} (m : M ext A) (k : A -> M ext B) :
  preserves m -> (forall a, preserves (k a)) -> preserves (bind ext m k).
Proof.
  intros Hm Hk w. unfold bind. specialize (Hm w).
  destruct (m w) as [[e|a] w1]; cbn [snd] in *; [exact Hm|].
  destruct (Hk a w1) as [H1 H2]. destruct Hm as [H3 H4]. split; congruence.
Qed.

Lemma preserves_try {A} (m : M ext A) (h : exn -> M ext A) :
  preserves m -> (forall e, preserves (h e)) -> preserves (try_except ext m h).
Proof.
  intros Hm Hh w. unfold try_except. specialize (Hm w).
  destruct (m w) as [[e|a] w1]; cbn [snd] in *; [|exact Hm].
  destruct (Hh e w1) as [H1 H2]. destruct Hm as [H3 H4]. split; congruence.
Qed.

Lemma preserves_uniform_array (lo hi : Q) (n : nat) :
  preserves (np_random_uniform_array ext lo hi n).
Proof.
  induction n as [|n IH]; cbn [np_random_uniform_array].
  - apply preserves_ret.
  - apply preserves_bind; [apply preserves_uniform|]. intros x.
    apply preserves_bind; [exact IH|]. intros xs. apply preserves_ret.
Qed.

Lemma preserves_for_each {A} (l : list A) (body : A -> M ext unit) :
  (forall a, preserves (body a)) -> preserves (for_each ext l body).
Proof.
  intros Hbody. induction l as [|a l IH]; cbn [for_each].
  - apply preserves_ret.
  - apply preserves_bind; [apply Hbody | intros _; exact IH].
Qed.

Lemma preserves_first {A} (a : list A) : preserves (first ext a).
Proof. destruct a; [apply preserves_raise | apply preserves_ret]. Qed.

Ltac frame_step :=
  cbv beta zeta delta [mbind M_bind time_sleep];
  first [ apply preserves_ret | apply preserves_raise | apply preserves_lift
        | apply preserves_print | apply preserves_getitem | apply preserves_first
        | apply preserves_uniform | apply preserves_uniform_array
        | apply preserves_bind; [|intros ?]
        | apply preserves_try; [|intros ?]
        | apply preserves_for_each; intros ?
        | match goal with
          | |- preserves (match ?x with _ => _ end) => destruct x
          end ].

Lemma preserves_engineer_single_row (a b : pyval) : preserves (engineer_single_row ext a b).
Proof. unfold engineer_single_row. repeat frame_step. Qed.

Lemma preserves_engineer_features (df : pd.DataFrame) : preserves (engineer_features ext df).
Proof. unfold engineer_features. repeat frame_step. Qed.

Lemma preserves_train_model (X : pd.DataFrame) : preserves (train_model ext X).
Proof. unfold train_model. repeat frame_step. Qed.

Lemma preserves_run_simulation (model : IsolationForest) : preserves (run_simulation ext model).
Proof. unfold run_simulation. repeat frame_step. Qed.

Lemma preserves_health_check : preserves (health_check ext).
Proof. unfold health_check. repeat frame_step. Qed.

Lemma preserves_predict_anomaly (reading : SensorReading) :
  preserves (predict_anomaly ext reading).
Proof. unfold predict_anomaly. repeat frame_step. Qed.

Lemma total_ret {A} (a : A) : total (ret ext a).
Proof. intros w. eexists. reflexivity. Qed.

Lemma total_print (line : string) : total (print ext line).
Proof. intros w. eexists. reflexivity. Qed.

Lemma total_bind {A B} (m : M ext A) (k : A -> M ext B) :
  total m -> (forall a, total (k a)) -> total (bind ext m k).
Proof.
  intros Hm Hk w. unfold bind. destruct (Hm w) as [a Ha].
  destruct (m w) as [[e|a'] w1]; cbn [fst] in Ha; [discriminate|]. apply Hk.
Qed.

Lemma total_try {A} (m : M ext A) (h : exn -> M ext A) :
  (forall e, total (h e)) -> total (try_except ext m h).
Proof.
  intros Hh w. unfold try_except.
  destruct (m w) as [[e|a] w1]; [apply Hh | eexists; reflexivity].
Qed.

Lemma total_for_each {A} (l : list A) (body : A -> M ext unit) :
  (forall a, total (body a)) -> total (for_each ext l body).
Proof.
  intros Hbody. induction l as [|a l IH]; cbn [for_each].
  - apply total_ret.
  - apply total_bind; [apply Hbody | intros _; exact IH].
Qed.

End Footprint.

(** ** The training job, further *)

Section TrainingFurther.

Context (ext : externals).

Lemma load_data_local (w : world ext) (df : pd.DataFrame) :
  fs w !! FILE_PATH = Some (CsvFile df) ->
  load_data ext w
  = (inr (Some df),
     set_stdout ext
       (stdout w ++ [ "--- [1/5] Loading Data ---";
                      "Reading data from: /data/predictive_maintenance.csv";
                      "Dataset loaded successfully!";
                      "Shape: (" +:+ pretty (pd.len df) +:+ ", " +:+ pretty (length df) +:+ ")" ]) w).
Proof.
  intros Hfile. destruct w as [f m g o]. cbn [fs] in Hfile.
  unfold load_data, mbind, M_bind, bind, try_except, print, os_path_exists, pd_read_csv,
    set_stdout, ret.
  cbn [fs ml_models rng stdout]. rewrite Hfile.
  cbn -[pretty append]. rewrite Hfile. cbn -[pretty append].
  rewrite <- !app_assoc. reflexivity.
Qed.

(** X1. With the data file on the volume, [load_data] returns its table
    without attempting a download (nothing of the download shows in the
    outcome or in the output), prints the shape of the table, and leaves the
    disk, the registry and the generator as they were. *)
Theorem load_data_reads_local_file (w : world ext) (df : pd.DataFrame) :
  fs w !! FILE_PATH = Some (CsvFile df) ->
  fst (load_data ext w) = inr (Some df)
  /\ fs (snd (load_data ext w)) = fs w
  /\ ml_models (snd (load_data ext w)) = ml_models w
  /\ rng (snd (load_data ext w)) = rng w
  /\ stdout (snd (load_data ext w))
     = (stdout w ++ [ "--- [1/5] Loading Data ---";
                      "Reading data from: /data/predictive_maintenance.csv";
                      "Dataset loaded successfully!";
                      "Shape: (" +:+ pretty (pd.len df) +:+ ", " +:+ pretty (length df) +:+ ")" ])%list.
Proof.
  intros Hfile. rewrite (load_data_local w df Hfile). repeat split; reflexivity.
Qed.

(** X2. A file at the data path that is not a readable table makes
    [load_data] print "Error reading CSV file: ..." and return [None]; the
    job then ends there, with the disk untouched: no download is attempted
    and nothing is saved. *)
Theorem unreadable_data_stops_the_job (w : world ext) (f : file) :
  fs w !! FILE_PATH = Some f ->
  (forall df, f <> CsvFile df) ->
  exists e w',
    load_data ext w = (inr None, w')
    /\ main ext w = (inr tt, w')
    /\ fs w' = fs w
    /\ stdout w' = (stdout w ++ [ "--- [1/5] Loading Data ---";
                                  "Reading data from: /data/predictive_maintenance.csv";
                                  "Error reading CSV file: " +:+ str e ])%list.
Proof.
  intros Hfile Hbad. destruct w as [fsw m g o]. cbn [fs] in Hfile.
  assert (Hload : exists e,
             load_data ext {| fs := fsw; ml_models := m; rng := g; stdout := o |}
             = (inr None,
                {| fs := fsw; ml_models := m; rng := g;
                   stdout := o ++ [ "--- [1/5] Loading Data ---";
                                    "Reading data from: /data/predictive_maintenance.csv";
                                    "Error reading CSV file: " +:+ str e ] |})).
  { unfold load_data, mbind, M_bind, bind, try_except, print, os_path_exists, pd_read_csv,
      set_stdout, ret.
    cbn [fs ml_models rng stdout]. rewrite Hfile. cbn -[append]. rewrite Hfile.
    destruct f as [df| |]; [destruct (Hbad df eq_refl)| |];
      exists (Exception "Error tokenizing data"); cbn -[append];
      rewrite <- !app_assoc; reflexivity. }
  destruct Hload as [e Hload]. eexists e, _. split; [exact Hload|].
  split; [|split; reflexivity].
  rewrite main_stops_without_data; rewrite Hload; reflexivity.
Qed.

Lemma filter_nil {A} (p : A -> bool) (l : list A) :
  (forall x, In x l -> p x = false) -> List.filter p l = [].
Proof.
  induction l as [|a l IH]; intros Hall; [reflexivity|].
  cbn [List.filter]. rewrite (Hall a (or_introl eq_refl)).
  apply IH. intros x Hx. apply Hall. right. exact Hx.
Qed.

(** A directory in which no file name ends in ".csv" lists no CSV file. *)
Lemma listdir_without_csv (dir : string) (files : gmap path file) :
  (forall name f, files !! os_path_join dir name = Some f ->
                  String.prefix (String.rev ".csv") (String.rev name) = false) ->
  List.filter (fun f => String.prefix (String.rev ".csv") (String.rev f))
    (omap (fun '((d, n), _) => if String.eqb d dir then Some n else None) (map_to_list files))
  = [].
Proof.
  intros Hnone. apply filter_nil. intros name Hin.
  apply list_elem_of_In, list_elem_of_omap in Hin.
  destruct Hin as ([[d n] f] & Hin & Hsel).
  apply elem_of_map_to_list in Hin.
  destruct (String.eqb_spec d dir) as [->|_]; [|discriminate].
  injection Hsel as <-. exact (Hnone n f Hin).
Qed.


(** X4. With the data file missing and a download whose directory holds no
    file named "....csv", [load_data] reports "No CSV file found in the
    downloaded dataset." as a critical error and returns [None]; the job ends
    there: the data path stays empty and the job writes nothing beyond what
    the download left in its cache. *)
Theorem download_without_csv_stops_the_job
    (w : world ext) (dir : string) (files : list (string * file)) :
  fs w !! FILE_PATH = None ->
  dataset_download ext "shivamb/machine-predictive-maintenance-classification"
  = inr (dir, files) ->
  (forall name f,
      foldr (fun '(n, f0) m => <[os_path_join dir n := f0]> m) (fs w) files
        !! os_path_join dir name = Some f ->
      String.prefix (String.rev ".csv") (String.rev name) = false) ->
  exists w',
    load_data ext w = (inr None, w')
    /\ main ext w = (inr tt, w')
    /\ fs w' = foldr (fun '(n, f0) m => <[os_path_join dir n := f0]> m) (fs w) files
    /\ stdout w'
       = (stdout w ++ [ "--- [1/5] Loading Data ---";
                        "File not found at /data/predictive_maintenance.csv.";
                        "Initiating automated download via KaggleHub...";
                        "Download complete. Cached at: " +:+ dir;
                        "CRITICAL ERROR: Automatic download failed: No CSV file found in the downloaded dataset." ])%list.
Proof.
  intros Hmissing Hdl Hnocsv. destruct w as [f m g o]. cbn [fs] in *.
  assert (Hnofile : foldr (fun '(n, f0) m0 => <[os_path_join dir n := f0]> m0) f files
                      !! os_path_join dir DATA_FILE = None).
  { destruct (_ !! os_path_join dir DATA_FILE) as [x|] eqn:E; [|reflexivity].
    apply Hnocsv in E. vm_compute in E. discriminate. }
  assert (Hload : load_data ext {| fs := f; ml_models := m; rng := g; stdout := o |}
            = (inr None,
               {| fs := foldr (fun '(n, f0) m0 => <[os_path_join dir n := f0]> m0) f files;
                  ml_models := m; rng := g;
                  stdout := o ++ [ "--- [1/5] Loading Data ---";
                                   "File not found at /data/predictive_maintenance.csv.";
                                   "Initiating automated download via KaggleHub...";
                                   "Download complete. Cached at: " +:+ dir;
                                   "CRITICAL ERROR: Automatic download failed: No CSV file found in the downloaded dataset." ] |})).
  { unfold load_data, mbind, M_bind, bind, try_except, print, os_path_exists, pd_read_csv,
      set_stdout, set_fs, ret, raise, kagglehub_dataset_download, shutil_move, os_listdir.
    cbn [fs ml_models rng stdout]. rewrite Hmissing, Hdl.
    cbn -[insert delete lookup append pretty foldr os_path_join List.filter omap map_to_list String.rev].
    rewrite Hnofile.
    cbn -[insert delete lookup append pretty foldr os_path_join List.filter omap map_to_list String.rev].
    rewrite (listdir_without_csv dir _ Hnocsv).
    cbn -[insert delete lookup append pretty foldr os_path_join].
    rewrite <- !app_assoc. reflexivity. }
  eexists. split; [exact Hload|]. split; [|split; reflexivity].
  rewrite main_stops_without_data; rewrite Hload; reflexivity.
Qed.

Lemma getitems_missing (df : pd.DataFrame) :
  pd.lookup "Air temperature [K]" df = None \/ pd.lookup "Rotational speed [rpm]" df = None ->
  exists msg,
    pd.getitems ["Air temperature [K]"; "Rotational speed [rpm]"] df = inl (KeyError msg)
    /\ (pd.lookup "Air temperature [K]" df <> None ->
        msg = "['Rotational speed [rpm]'] not in index")
    /\ (pd.lookup "Rotational speed [rpm]" df <> None ->
        msg = "['Air temperature [K]'] not in index")
    /\ (pd.lookup "Air temperature [K]" df = None ->
        pd.lookup "Rotational speed [rpm]" df = None ->
        msg = "None of [Index(['Air temperature [K]', 'Rotational speed [rpm]'], dtype='object')] are in the [columns]").
Proof.
  intros Hmiss. unfold pd.getitems, pd.getitem, pd.missing. cbn [traverse rbind List.filter].
  destruct (pd.lookup "Air temperature [K]" df) as [kelvin|],
           (pd.lookup "Rotational speed [rpm]" df) as [rpms|];
    cbn [rbind length Nat.eqb].
  - destruct Hmiss; discriminate.
  - eexists. split; [reflexivity|]. repeat split; try congruence; reflexivity.
  - eexists. split; [reflexivity|]. repeat split; try congruence; reflexivity.
  - eexists. split; [reflexivity|]. repeat split; try congruence; reflexivity.
Qed.

(** X5. A data file whose table lacks one of the two raw columns makes the
    job raise pandas' [KeyError] for the column selection, whose message
    lists the missing column (or says that none of the two was found): no
    noise has been drawn, the disk is unchanged and no model was saved. *)
Theorem missing_column_aborts_the_job (w : world ext) (df : pd.DataFrame) :
  fs w !! FILE_PATH = Some (CsvFile df) ->
  pd.lookup "Air temperature [K]" df = None \/ pd.lookup "Rotational speed [rpm]" df = None ->
  exists msg w',
    main ext w = (inl (KeyError msg), w')
    /\ fs w' = fs w
    /\ rng w' = rng w
    /\ (pd.lookup "Air temperature [K]" df <> None ->
        msg = "['Rotational speed [rpm]'] not in index")
    /\ (pd.lookup "Rotational speed [rpm]" df <> None ->
        msg = "['Air temperature [K]'] not in index")
    /\ (pd.lookup "Air temperature [K]" df = None ->
        pd.lookup "Rotational speed [rpm]" df = None ->
        msg = "None of [Index(['Air temperature [K]', 'Rotational speed [rpm]'], dtype='object')] are in the [columns]").
Proof.
  intros Hfile Hmiss.
  destruct (getitems_missing df Hmiss) as (msg & Hsel & Hrpm & Htemp & Hboth).
  destruct w as [f m g o].
  exists msg. eexists. split.
  - unfold main, mbind, M_bind, bind. rewrite (load_data_local _ df Hfile).
    unfold engineer_features, mbind, M_bind, bind, lift, print, set_stdout.
    cbn [fs ml_models rng stdout]. rewrite Hsel. reflexivity.
  - repeat split; auto.
Qed.

Lemma sub_scalar_text (col : pd.Series) (x : Q) (s : string) :
  In (PyStr s) col ->
  pd.sub_scalar col x = inl (TypeError "unsupported operand type(s) for -: 'str' and 'float'").
Proof.
  unfold pd.sub_scalar. induction col as [|v col IH]; intros Hin; [destruct Hin|].
  cbn [traverse]. destruct v as [y|s'].
  - destruct Hin as [Hin|Hin]; [discriminate|].
    cbn [py_sub rbind]. rewrite (IH Hin). reflexivity.
  - reflexivity.
Qed.

(** X6. A table whose temperature column holds a text value makes the job
    raise the [TypeError] of the Kelvin subtraction; again no noise has been
    drawn, the disk is unchanged and no model was saved. *)
Theorem text_temperature_aborts_the_job
    (w : world ext) (df : pd.DataFrame) (kelvin rpms : pd.Series) (s : string) :
  fs w !! FILE_PATH = Some (CsvFile df) ->
  pd.lookup "Air temperature [K]" df = Some kelvin ->
  pd.lookup "Rotational speed [rpm]" df = Some rpms ->
  In (PyStr s) kelvin ->
  exists w',
    main ext w
    = (inl (TypeError "unsupported operand type(s) for -: 'str' and 'float'"), w')
    /\ fs w' = fs w
    /\ rng w' = rng w.
Proof.
  intros Hfile Hk Hr Hin. destruct w as [f m g o]. eexists. split.
  - unfold main, mbind, M_bind, bind. rewrite (load_data_local _ df Hfile).
    unfold engineer_features, mbind, M_bind, bind, lift, print, set_stdout,
      pd.getitems, pd.getitem.
    cbn [fs ml_models rng stdout traverse rbind]. rewrite Hk, Hr.
    cbn -[append pd.sub_scalar]. rewrite (sub_scalar_text kelvin _ s Hin). reflexivity.
  - split; reflexivity.
Qed.

Lemma total_lift_inr {A} (a : A) : total ext (lift ext (inr a)).
Proof. intros w. eexists. reflexivity. Qed.

Lemma total_run_simulation (model : IsolationForest) : total ext (run_simulation ext model).
Proof.
  unfold run_simulation. cbv beta delta [mbind M_bind].
  apply total_bind; [apply total_print|]. intros _.
  apply total_for_each. intros item.
  apply total_bind; [apply total_print|]. intros _.
  apply total_bind; [apply total_lift_inr|]. intros input_df.
  apply total_bind; [|intros _; apply total_ret].
  apply total_try. intros e.
  apply total_bind; [apply total_print|]. intros _.
  destruct (feature_names_in_ model); [apply total_print | apply total_ret].
Qed.

(** A statement that leaves the generator alone. *)
Definition keeps_rng {A} (m : M ext A) : Prop :=
  forall w, rng (snd (m w)) = rng w.

Lemma keeps_rng_ret {A} (a : A) : keeps_rng (ret ext a).
Proof. intros w. reflexivity. Qed.

Lemma keeps_rng_raise {A} (e : exn) : keeps_rng (@raise ext A e).
Proof. intros w. reflexivity. Qed.

Lemma keeps_rng_lift {A} (r : result A) : keeps_rng (lift ext r).
Proof. intros w. reflexivity. Qed.

Lemma keeps_rng_print (line : string) : keeps_rng (print ext line).
Proof. intros w. reflexivity. Qed.

Lemma keeps_rng_bind {A B} (m : M ext A) (k : A -> M ext B) :
  keeps_rng m -> (forall a, keeps_rng (k a)) -> keeps_rng (bind ext m k).
Proof.
  intros Hm Hk w. unfold bind. specialize (Hm w).
  destruct (m w) as [[e|a] w1]; cbn [snd] in *; [exact Hm|].
  rewrite (Hk a w1). exact Hm.
Qed.

Lemma keeps_rng_try {A} (m : M ext A) (h : exn -> M ext A) :
  keeps_rng m -> (forall e, keeps_rng (h e)) -> keeps_rng (try_except ext m h).
Proof.
  intros Hm Hh w. unfold try_except. specialize (Hm w).
  destruct (m w) as [[e|a] w1]; cbn [snd] in *; [|exact Hm].
  rewrite (Hh e w1). exact Hm.
Qed.

Lemma keeps_rng_for_each {A} (l : list A) (body : A -> M ext unit) :
  (forall a, keeps_rng (body a)) -> keeps_rng (for_each ext l body).
Proof.
  intros Hbody. induction l as [|a l IH]; cbn [for_each].
  - apply keeps_rng_ret.
  - apply keeps_rng_bind; [apply Hbody | intros _; exact IH].
Qed.

Lemma keeps_rng_first {A} (a : list A) : keeps_rng (first ext a).
Proof. destruct a; [apply keeps_rng_raise | apply keeps_rng_ret]. Qed.

Lemma keeps_rng_run_simulation (model : IsolationForest) :
  keeps_rng (run_simulation ext model).
Proof.
  unfold run_simulation.
  repeat (cbv beta zeta delta [mbind M_bind time_sleep];
          first [ apply keeps_rng_ret | apply keeps_rng_raise | apply keeps_rng_lift
                | apply keeps_rng_print | apply keeps_rng_first
                | apply keeps_rng_bind; [|intros ?]
                | apply keeps_rng_try; [|intros ?]
                | apply keeps_rng_for_each; intros ?
                | match goal with
                  | |- keeps_rng (match ?x with _ => _ end) => destruct x
                  end ]).
Qed.

Lemma run_simulation_returns (model : IsolationForest) (w : world ext) :
  exists w',
    run_simulation ext model w = (inr tt, w')
    /\ fs w' = fs w
    /\ ml_models w' = ml_models w
    /\ rng w' = rng w.
Proof.
  destruct (total_run_simulation model w) as [[] Hret].
  destruct (preserves_run_simulation ext model w) as [Hfs Hreg].
  pose proof (keeps_rng_run_simulation model w) as Hrng.
  destruct (run_simulation ext model w) as [r w'] eqn:Hrun. cbn [fst snd] in *.
  exists w'. subst r. auto.
Qed.

(** X7. The simulation loop never raises, whatever the estimator does on the
    four built-in readings (return, raise, or answer with an empty array):
    every failure is caught and printed inside the loop. It writes neither
    the disk nor the registry and draws no noise. *)
Theorem run_simulation_never_raises (model : IsolationForest) (w : world ext) :
  exists w',
    run_simulation ext model w = (inr tt, w')
    /\ fs w' = fs w
    /\ ml_models w' = ml_models w
    /\ rng w' = rng w.
Proof. exact (run_simulation_returns model w). Qed.

(** X10. Training and serving agree on the artifact path: after
    [save_model] has stored an estimator, the service startup finds the file,
    loads that very estimator into the registry, and the health check reports
    the model as loaded. *)
Theorem saved_model_is_the_one_served (model : IsolationForest) (w : world ext) :
  exists w',
    lifespan_startup ext (snd (save_model ext model w)) = (inr tt, w')
    /\ ml_models w' = <["isolation_forest" := Some model]> (ml_models w)
    /\ fst (health_check ext w') = inr ("running", true).
Proof.
  destruct w as [f m g o]. eexists. split.
  - unfold save_model, lifespan_startup, mbind, M_bind, bind, print, joblib_dump,
      os_path_exists, joblib_load, ml_models_setitem, set_stdout, set_fs, set_ml_models.
    unfold MODEL_PATH, MODEL_SAVE_PATH.
    cbn -[insert append lookup]. rewrite lookup_insert_eq.
    cbn -[insert append lookup]. rewrite lookup_insert_eq.
    cbn -[insert append lookup]. reflexivity.
  - split; [reflexivity|].
    unfold health_check, mbind, M_bind, bind, ml_models_getitem.
    cbn [ml_models]. rewrite lookup_insert_eq. reflexivity.
Qed.

(** X11. On a numeric corpus the batch transform returns one row per corpus
    row in each of its three columns and draws exactly one noise value per
    row; it writes neither the disk nor the registry. On a corpus of no row
    it therefore returns three empty columns and draws nothing. *)
Theorem engineer_features_shape
    (df : pd.DataFrame) (temps rpms : list Q) (w : world ext) :
  pd.lookup "Air temperature [K]" df = Some (map PyFloat temps) ->
  pd.lookup "Rotational speed [rpm]" df = Some (map PyFloat rpms) ->
  length temps = length rpms ->
  exists out w',
    engineer_features ext df w = (inr out, w')
    /\ length out = 3
    /\ Forall (fun col => length (snd col) = length rpms) out
    /\ rng w' = snd (draws ext (-2.5) 2.5 (length rpms) (rng w))
    /\ fs w' = fs w
    /\ ml_models w' = ml_models w.
Proof.
  intros Hk Hr Hlen.
  destruct (engineer_features_floats ext df temps rpms w Hk Hr Hlen)
    as (w1 & Hrun & Hrng & Hfs & Hreg).
  eexists _, w1. split; [exact Hrun|].
  rewrite spec_transform_all_columns by (rewrite ?draws_length; congruence).
  split; [reflexivity|]. split; [|auto].
  repeat apply List.Forall_cons; try apply List.Forall_nil; cbn [snd];
    rewrite length_map, ?length_combine, ?draws_length; lia.
Qed.

End TrainingFurther.

(** ** The scoring service, further *)

Section ServiceFurther.

Context (ext : externals).

(** X12. A file at the artifact path that is not a stored estimator makes
    the startup raise: the service does not fall back to the unloaded state
    as it does for a missing file. The registry gets no entry and the disk
    is unchanged. *)
Theorem unreadable_artifact_fails_startup (w : world ext) (f : file) :
  fs w !! MODEL_PATH = Some f ->
  (forall model, f <> JoblibFile model) ->
  exists e w',
    lifespan_startup ext w = (inl e, w')
    /\ ml_models w' = ml_models w
    /\ fs w' = fs w.
Proof.
  intros Hfile Hbad. destruct w as [fsw m g o]. cbn [fs] in Hfile.
  unfold lifespan_startup, mbind, M_bind, bind, print, os_path_exists, joblib_load, set_stdout.
  cbn [fs ml_models rng stdout]. rewrite Hfile. cbn -[append]. rewrite Hfile.
  destruct f as [df|model|content]; [|destruct (Hbad model eq_refl)|];
    eexists _, _; (split; [reflexivity|split; reflexivity]).
Qed.

Lemma dispatch_footprint (req : request) (w : world ext) :
  fs (snd (dispatch ext req w)) = fs w
  /\ ml_models (snd (dispatch ext req w)) = ml_models w.
Proof.
  destruct req as [|reading]; unfold dispatch.
  - pose proof (preserves_health_check ext w) as H.
    destruct (health_check ext w) as [r w1]. exact H.
  - pose proof (preserves_predict_anomaly ext reading w) as H.
    destruct (predict_anomaly ext reading w) as [r w1]. exact H.
Qed.

Lemma serve_footprint (reqs : list request) (w : world ext) :
  length (fst (serve ext reqs w)) = length reqs
  /\ fs (snd (serve ext reqs w)) = fs w
  /\ ml_models (snd (serve ext reqs w)) = ml_models w.
Proof.
  revert w. induction reqs as [|req reqs IH]; intros w; [repeat split; reflexivity|].
  cbn [serve]. destruct (dispatch_footprint req w) as [Hfs Hreg].
  destruct (dispatch ext req w) as [r w1]. cbn [snd] in Hfs, Hreg.
  destruct (IH w1) as (Hlen & Hfs1 & Hreg1).
  destruct (serve ext reqs w1) as [rs w2]. cbn [fst snd length] in *.
  repeat split; congruence.
Qed.

(** X13. Over any sequence of requests, in any state and with any estimator
    loaded, the service answers every request (one response each, whatever
    fails inside a handler) and never writes the disk or the registry: once
    started it stays loaded, or unloaded, for good. *)
Theorem serve_never_writes_disk_or_registry (reqs : list request) (w : world ext) :
  length (fst (serve ext reqs w)) = length reqs
  /\ fs (snd (serve ext reqs w)) = fs w
  /\ ml_models (snd (serve ext reqs w)) = ml_models w.
Proof. exact (serve_footprint reqs w). Qed.

Lemma predict_anomaly_numeric_draw
    (model : IsolationForest) (t r : Q) (w : world ext) :
  ml_models w !! "isolation_forest" = Some (Some model) ->
  rng (snd (predict_anomaly ext
              {| temperature_k := PyFloat t; rotational_speed_rpm := PyFloat r |} w))
  = snd (random_sample ext (rng w)).
Proof.
  intros Hloaded.
  unfold predict_anomaly, mbind, M_bind, bind, ml_models_getitem, try_except, lift, first,
    raise, ret.
  rewrite Hloaded. cbn [temperature_k rotational_speed_rpm].
  rewrite engineer_single_row_floats. cbn [ml_models set_rng]. rewrite Hloaded.
  destruct (predict model _) as [e|[|p ps]]; try reflexivity;
    (destruct (decision_function model _) as [e|[|s ss]]; reflexivity).
Qed.

(** X15. All requests draw their noise from the one process-wide generator:
    on a loaded service each scoring request with numeric fields advances it
    by exactly one sample, whether or not the scoring that follows succeeds,
    so [n] such requests in a row leave it [n] samples further. *)
Theorem numeric_requests_draw_one_sample_each
    (model : IsolationForest) (readings : list (Q * Q)) (w : world ext) :
  ml_models w !! "isolation_forest" = Some (Some model) ->
  rng (snd (serve ext
              (map (fun p => PostPredict {| temperature_k := PyFloat (fst p);
                                            rotational_speed_rpm := PyFloat (snd p) |})
                   readings) w))
  = Nat.iter (length readings) (fun g => snd (random_sample ext g)) (rng w).
Proof.
  revert w. induction readings as [|[t r] readings IH]; intros w Hloaded; [reflexivity|].
  cbn [map serve dispatch fst snd length].
  pose proof (predict_anomaly_numeric_draw model t r w Hloaded) as Hdraw.
  destruct (preserves_predict_anomaly ext
              {| temperature_k := PyFloat t; rotational_speed_rpm := PyFloat r |} w)
    as [_ Hreg].
  destruct (predict_anomaly ext _ w) as [res w1]. cbn [snd] in Hdraw, Hreg.
  rewrite <- Hreg in Hloaded. specialize (IH w1 Hloaded).
  destruct (serve ext _ w1) as [rs w2]. cbn [snd] in *.
  rewrite IH, Hdraw, Nat.iter_succ_r. reflexivity.
Qed.

End ServiceFurther.

(** ** How far the noise moves the humidity *)



Section NoiseAmplitude.

Context (ext : externals).




End NoiseAmplitude.

(** ** The traffic generator *)

Section GeneratorProperties.

Context (lib : simulate_sensors.externals).

Import simulate_sensors.

(** The [i]-th reading of a run is the one yielded when the counter is [i]
    steps further. *)
Lemma take_nth (n : nat) (s : generator lib) (i : nat) (reading : SensorReading) :
  nth_error (fst (take lib n s)) i = Some reading ->
  exists s_i, t lib s_i = (t lib s + i)%nat /\ reading = fst (next lib s_i).
Proof.
  revert s i. induction n as [|n IH]; intros s i Hnth.
  - destruct i; discriminate.
  - cbn [take] in Hnth.
    destruct (next lib s) as [x s1] eqn:Hnext.
    assert (Ht1 : t lib s1 = S (t lib s)).
    { unfold next, random_uniform in Hnext.
      destruct (random_random lib (prng lib s)) as [u1 g1].
      destruct (random_random lib g1) as [u2 g2].
      injection Hnext as _ <-. reflexivity. }
    specialize (IH s1). destruct (take lib n s1) as [xs s2]. cbn [fst] in *.
    destruct i as [|i].
    + injection Hnth as <-. exists s. rewrite Hnext, Nat.add_0_r. auto.
    + destruct (IH i Hnth) as (s_i & Hti & Hr). exists s_i. split; [lia | exact Hr].
Qed.

Lemma next_spike (s : generator lib) :
  (0 < t lib s)%nat -> (t lib s mod 10 = 0)%nat ->
  rotational_speed_rpm (fst (next lib s)) = PyFloat 2800.
Proof.
  intros Hpos Hmod. unfold next, random_uniform.
  destruct (random_random lib (prng lib s)) as [u1 g1].
  destruct (random_random lib g1) as [u2 g2]. cbn [fst rotational_speed_rpm].
  rewrite Hmod. cbn [Nat.eqb andb].
  destruct (Nat.ltb_spec 0 (t lib s)); [reflexivity | lia].
Qed.

Lemma next_normal (s : generator lib) :
  (forall g, 0 <= fst (random_random lib g) <= 1)%Q ->
  ~ ((0 < t lib s)%nat /\ (t lib s mod 10 = 0)%nat) ->
  exists rpm,
    rotational_speed_rpm (fst (next lib s)) = PyFloat rpm /\ (1450 <= rpm <= 1550)%Q.
Proof.
  intros Hunit Hnot. unfold next, random_uniform.
  destruct (random_random lib (prng lib s)) as [u1 g1].
  pose proof (Hunit g1) as [H0 H1].
  destruct (random_random lib g1) as [u2 g2]. cbn [fst rotational_speed_rpm] in *.
  destruct (Nat.eqb_spec (t lib s mod 10) 0) as [Hmod|Hmod];
    destruct (Nat.ltb_spec 0 (t lib s)) as [Hpos|Hpos]; cbn [andb];
    try (exfalso; apply Hnot; split; assumption);
    (eexists; split; [reflexivity | split; lra]).
Qed.

Lemma next_temperature (s : generator lib) :
  (forall g, 0 <= fst (random_random lib g) <= 1)%Q ->
  (forall x, -1 <= math_sin lib x <= 1)%Q ->
  exists temp,
    temperature_k (fst (next lib s)) = PyFloat temp /\ (297.5 <= temp <= 302.5)%Q.
Proof.
  intros Hunit Hsin. unfold next, random_uniform.
  pose proof (Hunit (prng lib s)) as [H0 H1].
  destruct (random_random lib (prng lib s)) as [u1 g1].
  destruct (random_random lib g1) as [u2 g2]. cbn [fst temperature_k] in *.
  pose proof (Hsin (inject_Z (Z.of_nat (t lib s)) * 0.1)%Q) as [Hs0 Hs1].
  set (sine := math_sin lib _) in *.
  eexists; split; [reflexivity | split; lra].
Qed.

(** X18. The anomaly schedule. In any run of the generator from its start,
    the reading at every position that is a positive multiple of ten has
    rpm exactly 2800, whatever the random draws were; in particular the
    spike replaces the rpm that was drawn for that step. *)
Theorem every_tenth_reading_is_a_spike
    (g : prng_state lib) (n i : nat) (reading : SensorReading) :
  nth_error (fst (take lib n (generate_stream lib g))) i = Some reading ->
  (0 < i)%nat -> (i mod 10 = 0)%nat ->
  rotational_speed_rpm reading = PyFloat 2800.
Proof.
  intros Hnth Hpos Hmod.
  destruct (take_nth n _ i reading Hnth) as (s_i & Hti & ->).
  cbn [generate_stream t] in Hti. apply next_spike; rewrite Hti; assumption.
Qed.

(** X19. The normal band. With [random()] in [0, 1] and a sine in [-1, 1],
    every reading of a run has its temperature in [297.5, 302.5] K, and every
    reading that is not at a positive multiple of ten (the first reading
    included) has its rpm in [1450, 1550]: a spike occurs at the scheduled
    positions and nowhere else. *)
Theorem readings_stay_in_the_normal_band
    (g : prng_state lib) (n i : nat) (reading : SensorReading) :
  (forall g0, 0 <= fst (random_random lib g0) <= 1)%Q ->
  (forall x, -1 <= math_sin lib x <= 1)%Q ->
  nth_error (fst (take lib n (generate_stream lib g))) i = Some reading ->
  (exists temp,
      temperature_k reading = PyFloat temp /\ (297.5 <= temp <= 302.5)%Q)
  /\ (~ ((0 < i)%nat /\ (i mod 10 = 0)%nat) ->
      exists rpm,
        rotational_speed_rpm reading = PyFloat rpm /\ (1450 <= rpm <= 1550)%Q).
Proof.
  intros Hunit Hsin Hnth.
  destruct (take_nth n _ i reading Hnth) as (s_i & Hti & ->).
  cbn [generate_stream t] in Hti. split.
  - apply next_temperature; assumption.
  - intros Hnot. apply next_normal; [assumption|]. rewrite Hti. exact Hnot.
Qed.

End GeneratorProperties.

(** X20. The generator and the service fit together: every reading the
    generator yields has two numeric fields, so the service's transform
    returns a frame for it (with the three columns in order) in any state;
    the "Feature engineering failed" answer cannot be caused by generated
    traffic. *)
Theorem generated_readings_pass_the_transform
    (lib : simulate_sensors.externals) (g : simulate_sensors.prng_state lib) (n i : nat)
    (reading : SensorReading) (ext : externals) (w : world ext) :
  nth_error (fst (simulate_sensors.take lib n (simulate_sensors.generate_stream lib g))) i
  = Some reading ->
  exists X w1,
    engineer_single_row ext (temperature_k reading) (rotational_speed_rpm reading) w
    = (inr X, w1)
    /\ pd.columns X = ["sound_volume_proxy"; "temperature_celsius"; "humidity"].
Proof.
  intros Hnth. destruct (take_nth lib n _ i reading Hnth) as (s_i & _ & ->).
  unfold simulate_sensors.next, simulate_sensors.random_uniform.
  destruct (simulate_sensors.random_random lib (simulate_sensors.prng lib s_i)) as [u1 g1].
  destruct (simulate_sensors.random_random lib g1) as [u2 g2].
  cbn [fst temperature_k rotational_speed_rpm].
  eexists _, _. rewrite engineer_single_row_floats. split; reflexivity.
Qed.


(** ** The further properties at concrete inputs *)

Lemma load_data_reads_local_file_witness :
  fst (load_data test_externals (test_world {[ FILE_PATH := CsvFile calibrated_corpus ]} ∅ []))
  = inr (Some calibrated_corpus).
Proof.
  refine (proj1 (load_data_reads_local_file test_externals
                   (test_world {[ FILE_PATH := CsvFile calibrated_corpus ]} ∅ [])
                   calibrated_corpus _)).
  vm_compute; reflexivity.
Defined.

Lemma unreadable_data_witness :
  exists e w',
    load_data test_externals (test_world {[ FILE_PATH := OtherFile "garbage" ]} ∅ [])
    = (inr None, w')
    /\ main test_externals (test_world {[ FILE_PATH := OtherFile "garbage" ]} ∅ [])
       = (inr tt, w')
    /\ fs w' = {[ FILE_PATH := OtherFile "garbage" ]}
    /\ stdout w' = [ "--- [1/5] Loading Data ---";
                     "Reading data from: /data/predictive_maintenance.csv";
                     "Error reading CSV file: " +:+ str e ].
Proof.
  refine (unreadable_data_stops_the_job test_externals
            (test_world {[ FILE_PATH := OtherFile "garbage" ]} ∅ []) (OtherFile "garbage") _ _).
  - vm_compute; reflexivity.
  - intros df H; discriminate H.
Defined.


Lemma download_without_csv_witness :
  exists w',
    load_data (externals_with_download "/cache" [("readme.txt", OtherFile "notes")])
      (download_world "/cache" [("readme.txt", OtherFile "notes")] ∅)
    = (inr None, w')
    /\ main (externals_with_download "/cache" [("readme.txt", OtherFile "notes")])
         (download_world "/cache" [("readme.txt", OtherFile "notes")] ∅)
       = (inr tt, w')
    /\ fs w' = {[ os_path_join "/cache" "readme.txt" := OtherFile "notes" ]}
    /\ stdout w'
       = [ "--- [1/5] Loading Data ---";
           "File not found at /data/predictive_maintenance.csv.";
           "Initiating automated download via KaggleHub...";
           "Download complete. Cached at: /cache";
           "CRITICAL ERROR: Automatic download failed: No CSV file found in the downloaded dataset." ].
Proof.
  refine (download_without_csv_stops_the_job
            (externals_with_download "/cache" [("readme.txt", OtherFile "notes")])
            (download_world "/cache" [("readme.txt", OtherFile "notes")] ∅)
            "/cache" [("readme.txt", OtherFile "notes")] _ _ _).
  - vm_compute; reflexivity.
  - reflexivity.
  - intros name f H. cbn [foldr download_world fs] in H.
    apply lookup_insert_Some in H. destruct H as [[Hkey _]|[_ H]].
    + injection Hkey as <-. reflexivity.
    + rewrite lookup_empty in H. discriminate H.
Defined.

Lemma missing_column_witness :
  exists msg w',
    main test_externals (test_world {[ FILE_PATH := CsvFile corpus_without_rpm ]} ∅ [1 # 2]%Q)
    = (inl (KeyError msg), w')
    /\ fs w' = {[ FILE_PATH := CsvFile corpus_without_rpm ]}
    /\ rng w' = [1 # 2]%Q
    /\ msg = "['Rotational speed [rpm]'] not in index".
Proof.
  destruct (missing_column_aborts_the_job test_externals
              (test_world {[ FILE_PATH := CsvFile corpus_without_rpm ]} ∅ [1 # 2]%Q)
              corpus_without_rpm)
    as (msg & w' & Hmain & Hfs & Hrng & Hrpm & _).
  - vm_compute; reflexivity.
  - right. reflexivity.
  - exists msg, w'. split; [exact Hmain|]. split; [exact Hfs|]. split; [exact Hrng|].
    apply Hrpm. discriminate.
Defined.

Lemma text_temperature_witness :
  exists w',
    main test_externals (test_world {[ FILE_PATH := CsvFile corpus_with_text ]} ∅ [1 # 2]%Q)
    = (inl (TypeError "unsupported operand type(s) for -: 'str' and 'float'"), w')
    /\ fs w' = {[ FILE_PATH := CsvFile corpus_with_text ]}
    /\ rng w' = [1 # 2]%Q.
Proof.
  refine (text_temperature_aborts_the_job test_externals
            (test_world {[ FILE_PATH := CsvFile corpus_with_text ]} ∅ [1 # 2]%Q)
            corpus_with_text [PyStr "hot"] [PyFloat 1500] "hot" _ _ _ _).
  - vm_compute; reflexivity.
  - reflexivity.
  - reflexivity.
  - left. reflexivity.
Defined.

Lemma engineer_features_shape_witness :
  exists out w',
    engineer_features test_externals calibrated_corpus (test_world ∅ ∅ [1 # 2; 1 # 4; 3 # 4]%Q)
    = (inr out, w')
    /\ length out = 3%nat
    /\ Forall (fun col => length (snd col) = 2%nat) out
    /\ rng w' = [3 # 4]%Q
    /\ fs w' = ∅
    /\ ml_models w' = ∅.
Proof.
  refine (engineer_features_shape test_externals calibrated_corpus [299; 301]%Q [1500; 1576]%Q
            (test_world ∅ ∅ [1 # 2; 1 # 4; 3 # 4]%Q) _ _ _); reflexivity.
Defined.

Lemma unreadable_artifact_witness :
  exists e w',
    lifespan_startup test_externals (test_world {[ MODEL_PATH := OtherFile "truncated" ]} ∅ [])
    = (inl e, w')
    /\ ml_models w' = ∅
    /\ fs w' = {[ MODEL_PATH := OtherFile "truncated" ]}.
Proof.
  refine (unreadable_artifact_fails_startup test_externals
            (test_world {[ MODEL_PATH := OtherFile "truncated" ]} ∅ [])
            (OtherFile "truncated") _ _).
  - vm_compute; reflexivity.
  - intros model H; discriminate H.
Defined.

Lemma numeric_requests_witness :
  rng (snd (serve test_externals
              [PostPredict {| temperature_k := PyFloat 300; rotational_speed_rpm := PyFloat 1500 |};
               PostPredict {| temperature_k := PyFloat 310; rotational_speed_rpm := PyFloat 2800 |}]
              (loaded_world mismatched_model [1 # 2; 1 # 4; 3 # 4]%Q)))
  = [3 # 4]%Q.
Proof.
  refine (numeric_requests_draw_one_sample_each test_externals mismatched_model
            [(300, 1500); (310, 2800)]%Q
            (loaded_world mismatched_model [1 # 2; 1 # 4; 3 # 4]%Q) _).
  vm_compute; reflexivity.
Defined.



Lemma every_tenth_reading_witness :
  exists reading,
    nth_error (fst (simulate_sensors.take steady_simulator 11
                      (simulate_sensors.generate_stream steady_simulator tt))) 10
    = Some reading
    /\ rotational_speed_rpm reading = PyFloat 2800.
Proof.
  eexists. split; [vm_compute; reflexivity|].
  refine (every_tenth_reading_is_a_spike steady_simulator tt 11 10 _ _ _ _).
  - vm_compute; reflexivity.
  - lia.
  - reflexivity.
Defined.

Lemma normal_band_witness :
  exists reading,
    nth_error (fst (simulate_sensors.take steady_simulator 3
                      (simulate_sensors.generate_stream steady_simulator tt))) 2
    = Some reading
    /\ (exists temp,
          temperature_k reading = PyFloat temp /\ (297.5 <= temp <= 302.5)%Q)
    /\ (~ ((0 < 2)%nat /\ (2 mod 10 = 0)%nat) ->
        exists rpm,
          rotational_speed_rpm reading = PyFloat rpm /\ (1450 <= rpm <= 1550)%Q).
Proof.
  eexists. split; [vm_compute; reflexivity|].
  refine (readings_stay_in_the_normal_band steady_simulator tt 3 2 _ _ _ _).
  - intros g. split; apply Qle_bool_imp_le; reflexivity.
  - intros x. split; apply Qle_bool_imp_le; reflexivity.
  - vm_compute; reflexivity.
Defined.

Lemma generated_readings_witness :
  exists reading X w1,
    nth_error (fst (simulate_sensors.take steady_simulator 11
                      (simulate_sensors.generate_stream steady_simulator tt))) 10
    = Some reading
    /\ engineer_single_row test_externals (temperature_k reading) (rotational_speed_rpm reading)
         (test_world ∅ ∅ [1 # 2]%Q)
       = (inr X, w1)
    /\ pd.columns X = ["sound_volume_proxy"; "temperature_celsius"; "humidity"].
Proof.
  eexists. 
  destruct (generated_readings_pass_the_transform steady_simulator tt 11 10 _
              test_externals (test_world ∅ ∅ [1 # 2]%Q) ltac:(vm_compute; reflexivity))
    as (X & w1 & Hrun & Hcols).
  exists X, w1. split; [vm_compute; reflexivity|]. split; [exact Hrun | exact Hcols].
Defined.
